(** * Numeric histograms of the trace-viewer value library

    A shallow embedding of [value/numeric.js] (NumericBase, NumericBin,
    Numeric, NumericBuilder, ScalarNumeric) and the properties of its
    behaviour.

    Conventions of the embedding:
    - a JavaScript number is a [num]: an exact rational or one of the three
      sentinels NaN, +Infinity, -Infinity.  Arithmetic on finite values is
      exact (no rounding, no signed zero); the sentinels follow IEEE rules;
    - a method that can throw returns an [outcome]; a method that mutates
      [this] and can throw is a state transformer that returns the state
      reached together with the outcome, so that whatever was written
      before a throw stays visible;
    - the bins of a Numeric are stored once (underflowBin, centralBins,
      overflowBin); [allBins] is the view the JavaScript array gives of the
      same objects, and a mutation of a bin goes through its index there;
    - the bin's back reference to its parent and the summary options are
      left out: nothing below reads them. *)

From Stdlib Require Import QArith Qround ZArith Lia Lqa String.
From stdpp Require Import base decidable option list.

Local Open Scope Z_scope.

(** ** JavaScript numbers *)

Inductive num : Type :=
  | NaN
  | NegInf
  | Fin (q : Q)
  | PosInf.

Definition num_of_Z (z : Z) : num := Fin (inject_Z z).
Definition num_of_nat (n : nat) : num := num_of_Z (Z.of_nat n).

Definition isNaN (x : num) : bool :=
  match x with NaN => true | _ => false end.

Definition isFinite (x : num) : bool :=
  match x with Fin _ => true | _ => false end.

(** [x < y] *)
Definition num_lt (x y : num) : bool :=
  match x, y with
  | NaN, _ | _, NaN => false
  | NegInf, NegInf => false
  | NegInf, _ => true
  | _, NegInf => false
  | PosInf, _ => false
  | Fin _, PosInf => true
  | Fin a, Fin b => negb (Qle_bool b a)
  end.

(** [x <= y] *)
Definition num_le (x y : num) : bool :=
  match x, y with
  | NaN, _ | _, NaN => false
  | NegInf, _ => true
  | _, NegInf => false
  | _, PosInf => true
  | PosInf, _ => false
  | Fin a, Fin b => Qle_bool a b
  end.

(** [x >= y] *)
Definition num_ge (x y : num) : bool := num_le y x.

(** [x === y] on numbers *)
Definition num_eq (x y : num) : bool :=
  match x, y with
  | NegInf, NegInf | PosInf, PosInf => true
  | Fin a, Fin b => Qeq_bool a b
  | _, _ => false
  end.

Definition num_neg (x : num) : num :=
  match x with
  | NaN => NaN
  | NegInf => PosInf
  | PosInf => NegInf
  | Fin a => Fin (Qred (- a))
  end.

Definition num_add (x y : num) : num :=
  match x, y with
  | NaN, _ | _, NaN => NaN
  | PosInf, NegInf | NegInf, PosInf => NaN
  | PosInf, _ | _, PosInf => PosInf
  | NegInf, _ | _, NegInf => NegInf
  | Fin a, Fin b => Fin (Qred (a + b))
  end.

Definition num_sub (x y : num) : num := num_add x (num_neg y).

(** The sign of a rational: -1, 0 or 1. *)
Definition Qsgn (a : Q) : Z := Z.sgn (Qnum a).

Definition inf_of_sign (s : Z) : num :=
  match s with
  | Z0 => NaN
  | Zpos _ => PosInf
  | Zneg _ => NegInf
  end.

Definition num_sgn (x : num) : Z :=
  match x with
  | NaN => 0
  | NegInf => -1
  | PosInf => 1
  | Fin a => Qsgn a
  end.

Definition num_mul (x y : num) : num :=
  match x, y with
  | NaN, _ | _, NaN => NaN
  | Fin a, Fin b => Fin (Qred (a * b))
  | _, _ => inf_of_sign (num_sgn x * num_sgn y)
  end.

Definition num_div (x y : num) : num :=
  match x, y with
  | NaN, _ | _, NaN => NaN
  | Fin a, Fin b =>
      if Qeq_bool b 0 then inf_of_sign (Qsgn a) else Fin (Qred (a / b))
  | Fin _, _ => Fin 0
  | _, Fin b => inf_of_sign (num_sgn x * (if Qeq_bool b 0 then 1 else Qsgn b))
  | _, _ => NaN
  end.

(** [Math.max(x, y)] and [Math.min(x, y)] *)
Definition Math_max (x y : num) : num :=
  match x, y with
  | NaN, _ | _, NaN => NaN
  | _, _ => if num_lt x y then y else x
  end.

Definition Math_min (x y : num) : num :=
  match x, y with
  | NaN, _ | _, NaN => NaN
  | _, _ => if num_lt y x then y else x
  end.

(** [Number.MAX_VALUE], the largest finite double: 2^1024 - 2^971. *)
Definition MAX_VALUE : num :=
  Eval vm_compute in Fin (inject_Z (2 ^ 1024 - 2 ^ 971)).

(** [Math.ceil(Math.sqrt(n))] for a length [n]. *)
Definition ceil_sqrt (n : nat) : Z :=
  let r := Z.sqrt (Z.of_nat n) in
  if r * r =? Z.of_nat n then r else r + 1.

(** ** Results of calls that can throw *)

Inductive outcome (A : Type) : Type :=
  | Ok (a : A)
  | Throw (msg : string).
Arguments Ok {A} a.
Arguments Throw {A} msg.

Definition obind {A B} (r : outcome A) (k : A -> outcome B) : outcome B :=
  match r with
  | Ok a => k a
  | Throw m => Throw m
  end.

(** A method body running on a mutable receiver of type [S]. *)
Definition method (S A : Type) : Type := S -> S * outcome A.

Definition ret {S A} (a : A) : method S A := fun s => (s, Ok a).
Definition throw {S A} (m : string) : method S A := fun s => (s, Throw m).
Definition bind {S A B} (c : method S A) (k : A -> method S B) : method S B :=
  fun s => match c s with
           | (s', Ok a) => k a s'
           | (s', Throw m) => (s', Throw m)
           end.
Definition get {S} : method S S := fun s => (s, Ok s).
Definition modify {S} (f : S -> S) : method S () := fun s => (f s, Ok ()).

Declare Scope method_scope.
Delimit Scope method_scope with method.
Notation "x <- c ;; k" := (bind c (fun x => k))
  (at level 100, c at next level, right associativity) : method_scope.
Notation "c ;;; k" := (bind c (fun _ => k))
  (at level 100, right associativity) : method_scope.

(** [for (x of xs) body(x)] on a mutable receiver: a throw stops the loop
    and keeps what the earlier iterations wrote. *)
Fixpoint for_of {S A} (xs : list A) (body : A -> method S ()) : method S () :=
  match xs with
  | [] => ret ()
  | x :: xs' => bind (body x) (fun _ => for_of xs' body)
  end.

(** ** Ranges *)

(** Modelled from the spec: [tr.b.Range] of base/range.js, the generic
    min/max pair with emptiness, equality, union by value and midpoint.
    An empty range has no bounds; they read as [NaN] here. *)
Record Range : Type := mkRange {
  isEmpty : bool;
  rmin : num;
  rmax : num
}.

Definition Range_new : Range := mkRange true NaN NaN.

Definition Range_fromExplicitRange (lo hi : num) : Range := mkRange false lo hi.

Definition Range_addValue (v : num) (r : Range) : Range :=
  if isEmpty r then mkRange false v v
  else mkRange false (Math_min (rmin r) v) (Math_max (rmax r) v).

Definition Range_equals (a b : Range) : bool :=
  if isEmpty a && isEmpty b then true
  else if negb (Bool.eqb (isEmpty a) (isEmpty b)) then false
  else num_eq (rmin a) (rmin b) && num_eq (rmax a) (rmax b).

Definition Range_center (r : Range) : num :=
  num_mul (num_add (rmin r) (rmax r)) (Fin (1 # 2)).

Definition Range_set_min (v : num) (r : Range) : Range :=
  mkRange false v (rmax r).

Definition Range_set_max (v : num) (r : Range) : Range :=
  mkRange false (rmin r) v.

(** ** Collaborators *)

(** [tr.v.ImprovementDirection] of value/unit.js. *)
Inductive ImprovementDirection : Type :=
  | DIR_DONT_CARE
  | BIGGER_IS_BETTER
  | SMALLER_IS_BETTER.

(** The modules numeric.js requires: units, running statistics, the
    diagnostic registry and the sampling and testing helpers of
    base/statistics.js.  Their code is a parameter of the development.
    The sampling helpers draw random numbers; an instance fixes the draws. *)
Class Collaborators : Type := {
  Unit : Type;
  Unit_eq_dec :: EqDecision Unit;
  improvementDirection : Unit -> ImprovementDirection;
  Unit_asJSON : Unit -> string;
  Unit_fromJSON : string -> outcome Unit;

  RunningStatistics : Type;
  RunningDict : Type;
  Running_new : RunningStatistics;
  Running_add : num -> RunningStatistics -> RunningStatistics;
  Running_merge : RunningStatistics -> RunningStatistics -> RunningStatistics;
  Running_asDict : RunningStatistics -> RunningDict;
  Running_fromDict : RunningDict -> RunningStatistics;

  Diagnostic : Type;
  DiagnosticDict : Type;
  Diagnostic_asDictInto_ : Diagnostic -> DiagnosticDict;
  Diagnostic_findTypeInfoWithName :
    DiagnosticDict -> option (DiagnosticDict -> outcome Diagnostic);
  Diagnostic_typeName : DiagnosticDict -> string;

  (** [uniformlySampleStream(samples, streamLength, newElement, numSamples)]
      gives the new content of [samples]. *)
  uniformlySampleStream : forall A : Type, list A -> nat -> A -> nat -> list A;
  (** [mergeSampledStreams(samplesA, lenA, samplesB, lenB, numSamples)]
      gives the new content of [samplesA]. *)
  mergeSampledStreams : forall A : Type, list A -> nat -> list A -> nat -> num -> list A;
  (** [mwu.test(a, b).p] *)
  mwu_test_p : list num -> list num -> num
}.
Arguments uniformlySampleStream {_ A}.
Arguments mergeSampledStreams {_ A}.

Section Numeric.
Context `{C : Collaborators}.

Definition MAX_DIAGNOSTICS : nat := 16.

(** p-values less than this indicate statistical significance. *)
Definition DEFAULT_ALPHA : num := Fin (5 # 100).

Inductive Significance : Type :=
  | DONT_CARE
  | INSIGNIFICANT
  | SIGNIFICANT.

(** [traverse]: map a throwing function over an array, left to right. *)
Fixpoint map_outcome {A B} (f : A -> outcome B) (l : list A) : outcome (list B) :=
  match l with
  | [] => Ok []
  | x :: l' =>
      obind (f x) (fun y => obind (map_outcome f l') (fun ys => Ok (y :: ys)))
  end.

(** *** diagnostics/diagnostic.js *)

Definition Diagnostic_asDict (d : Diagnostic) : DiagnosticDict :=
  Diagnostic_asDictInto_ d.

Definition Diagnostic_fromDict (d : DiagnosticDict) : outcome Diagnostic :=
  match Diagnostic_findTypeInfoWithName d with
  | None => Throw ("Unrecognized diagnostic type: " ++ Diagnostic_typeName d)
  | Some ctor_fromDict => ctor_fromDict d
  end.

(** *** NumericBin *)

Record NumericBin : Type := mkBin {
  range : Range;
  count : nat;
  diagnostics : list Diagnostic
}.

Record BinDict : Type := mkBinDict {
  d_min : num;
  d_max : num;
  d_count : nat;
  d_diagnostics : option (list DiagnosticDict)
}.

Definition NumericBin_new (opt_range : option Range) : NumericBin :=
  mkBin (default Range_new opt_range) 0 [].

Definition NumericBin_fromDict (d : BinDict) : outcome NumericBin :=
  let n := NumericBin_new None in
  let n := mkBin (Range_set_min (d_min d) (range n)) (count n) (diagnostics n) in
  let n := mkBin (Range_set_max (d_max d) (range n)) (count n) (diagnostics n) in
  let n := mkBin (range n) (d_count d) (diagnostics n) in
  match d_diagnostics d with
  | Some dds =>
      obind (map_outcome Diagnostic_fromDict dds)
            (fun ds => Ok (mkBin (range n) (count n) ds))
  | None => Ok n
  end.

(** [NumericBin.prototype.add] *)
Definition NumericBin_add (value : num) (opt_diagnostic : option Diagnostic)
    (b : NumericBin) : NumericBin :=
  let b := mkBin (range b) (count b + 1) (diagnostics b) in
  match opt_diagnostic with
  | Some d =>
      mkBin (range b) (count b)
            (uniformlySampleStream (diagnostics b) (count b) d MAX_DIAGNOSTICS)
  | None => b
  end.

(** [NumericBin.prototype.addBin] *)
Definition NumericBin_addBin (other : NumericBin) : method NumericBin () :=
  fun this =>
    if negb (Range_equals (range this) (range other))
    then (this, Throw "Merging incompatible Numeric bins.")
    else
      let this := mkBin (range this) (count this)
                        (mergeSampledStreams (diagnostics this) (count this)
                           (diagnostics other) (count other)
                           (num_of_nat MAX_DIAGNOSTICS)) in
      let this := mkBin (range this) (count this + count other) (diagnostics this) in
      (this, Ok ()).

Definition NumericBin_asDict (b : NumericBin) : BinDict :=
  mkBinDict (rmin (range b)) (rmax (range b)) (count b)
            (Some (map Diagnostic_asDict (diagnostics b))).

(** *** Numeric *)

Record Numeric : Type := mkNumeric {
  unit : Unit;
  nrange : Range;
  numNans : nat;
  nanDiagnostics : list Diagnostic;
  running : RunningStatistics;
  maxCount_ : nat;
  underflowBin : NumericBin;
  centralBins : list NumericBin;
  overflowBin : NumericBin;
  sampleValues_ : list num;
  maxNumSampleValues : nat
}.

Record BinInfo : Type := mkBinInfo {
  bi_underflowBin : NumericBin;
  bi_centralBins : list NumericBin;
  bi_overflowBin : NumericBin
}.

(** [this.allBins]: the underflow bin, the central bins, the overflow bin. *)
Definition allBins (h : Numeric) : list NumericBin :=
  [underflowBin h] ++ centralBins h ++ [overflowBin h].

Definition set_maxCount_ (m : nat) (h : Numeric) : Numeric :=
  mkNumeric (unit h) (nrange h) (numNans h) (nanDiagnostics h) (running h) m
    (underflowBin h) (centralBins h) (overflowBin h) (sampleValues_ h)
    (maxNumSampleValues h).

Definition set_numNans (n : nat) (h : Numeric) : Numeric :=
  mkNumeric (unit h) (nrange h) n (nanDiagnostics h) (running h) (maxCount_ h)
    (underflowBin h) (centralBins h) (overflowBin h) (sampleValues_ h)
    (maxNumSampleValues h).

Definition set_nanDiagnostics (ds : list Diagnostic) (h : Numeric) : Numeric :=
  mkNumeric (unit h) (nrange h) (numNans h) ds (running h) (maxCount_ h)
    (underflowBin h) (centralBins h) (overflowBin h) (sampleValues_ h)
    (maxNumSampleValues h).

Definition set_running (r : RunningStatistics) (h : Numeric) : Numeric :=
  mkNumeric (unit h) (nrange h) (numNans h) (nanDiagnostics h) r (maxCount_ h)
    (underflowBin h) (centralBins h) (overflowBin h) (sampleValues_ h)
    (maxNumSampleValues h).

Definition set_sampleValues_ (vs : list num) (h : Numeric) : Numeric :=
  mkNumeric (unit h) (nrange h) (numNans h) (nanDiagnostics h) (running h)
    (maxCount_ h) (underflowBin h) (centralBins h) (overflowBin h) vs
    (maxNumSampleValues h).

Definition set_maxNumSampleValues (n : nat) (h : Numeric) : Numeric :=
  mkNumeric (unit h) (nrange h) (numNans h) (nanDiagnostics h) (running h)
    (maxCount_ h) (underflowBin h) (centralBins h) (overflowBin h)
    (sampleValues_ h) n.

(** The bin object at index [i] of [allBins] is replaced by [b]; the
    three fields that hold the bins see the change. *)
Definition set_bin (i : nat) (b : NumericBin) (h : Numeric) : Numeric :=
  let n := length (centralBins h) in
  mkNumeric (unit h) (nrange h) (numNans h) (nanDiagnostics h) (running h)
    (maxCount_ h)
    (if decide (i = 0)%nat then b else underflowBin h)
    (match i with
     | O => centralBins h
     | S j => <[j := b]> (centralBins h)
     end)
    (if decide (i = S n) then b else overflowBin h)
    (sampleValues_ h) (maxNumSampleValues h).

(** The constructor [Numeric(unit, range, binInfo)]. *)
Definition Numeric_new (u : Unit) (r : Range) (binInfo : BinInfo) : Numeric :=
  let this :=
    mkNumeric u r 0 [] Running_new 0
      (bi_underflowBin binInfo) (bi_centralBins binInfo) (bi_overflowBin binInfo)
      [] 0 in
  let this :=
    fold_left (fun this bin =>
                 if (maxCount_ this <? count bin)%nat
                 then set_maxCount_ (count bin) this else this)
              (allBins this) this in
  let this := set_sampleValues_ [] this in
  set_maxNumSampleValues (length (allBins this) * 10) this.

(** [get numValues]: [tr.b.Statistics.sum] of the bins' counts. *)
Definition numValues (h : Numeric) : nat :=
  foldr (fun e acc => (count e + acc)%nat) 0%nat (allBins h).

(** [get maxCount] *)
Definition maxCount (h : Numeric) : nat := maxCount_ h.

(** [get sampleValues] *)
Definition sampleValues (h : Numeric) : list num := sampleValues_ h.

(** Modelled from the spec: [tr.b.findHighIndexInSortedArray] of
    base/sorted_array_utils.js as getBinForValue uses it, an ascending
    search for the first element on which the callback is negative;
    the length of the array when there is none. *)
Fixpoint findHighIndexInSortedArray {A} (ary : list A) (fn : A -> Z) : nat :=
  match ary with
  | [] => 0
  | x :: ary' => if fn x <? 0 then 0%nat else S (findHighIndexInSortedArray ary' fn)
  end.

(** [getBinForValue] yields a bin object; here its index in [allBins]. *)
Definition getBinForValue (value : num) (h : Numeric) : nat :=
  let binIndex :=
    findHighIndexInSortedArray (allBins h)
      (fun b => if num_lt value (rmax (range b)) then -1 else 1) in
  match allBins h !! binIndex with
  | Some _ => binIndex
  | None => S (length (centralBins h))
  end.

(** [Numeric.prototype.add] *)
Definition Numeric_add (value : num) (opt_diagnostic : option Diagnostic)
    (this : Numeric) : Numeric :=
  let this :=
    if isNaN value then
      let this := set_numNans (numNans this + 1) this in
      match opt_diagnostic with
      | Some d =>
          set_nanDiagnostics
            (uniformlySampleStream (nanDiagnostics this) (numNans this) d
               MAX_DIAGNOSTICS) this
      | None => this
      end
    else
      let i := getBinForValue value this in
      match allBins this !! i with
      | Some bin =>
          let bin := NumericBin_add value opt_diagnostic bin in
          let this := set_bin i bin this in
          let this := set_running (Running_add value (running this)) this in
          if (maxCount_ this <? count bin)%nat
          then set_maxCount_ (count bin) this else this
      | None => this
      end in
  set_sampleValues_
    (uniformlySampleStream (sampleValues_ this)
       (numValues this + numNans this) value (maxNumSampleValues this)) this.

(** [sampleValuesInto] of a Numeric *)
Definition Numeric_sampleValuesInto (this : Numeric) (samples : list num) : list num :=
  samples ++ sampleValues this.

(** [canAddNumeric] *)
Definition canAddNumeric (this other : Numeric) : bool :=
  if negb (Range_equals (nrange this) (nrange other)) then false
  else if negb (bool_decide (unit this = unit other)) then false
  else if negb (length (allBins this) =? length (allBins other))%nat then false
  else
    forallb (fun i =>
               match allBins this !! i, allBins other !! i with
               | Some a, Some b => Range_equals (range a) (range b)
               | _, _ => false
               end)
            (seq 0 (length (allBins this))).

(** Modelled from the spec: [tr.b.Statistics.mean] of base/statistics.js
    on the two capacities, their average. *)
Definition Statistics_mean2 (a b : nat) : num :=
  num_div (num_add (num_of_nat a) (num_of_nat b)) (num_of_Z 2).

(** [this.allBins[i].addBin(other.allBins[i])] *)
Definition addBin_at (other : Numeric) (i : nat) : method Numeric () :=
  fun this =>
    match allBins this !! i, allBins other !! i with
    | Some bin, Some obin =>
        let '(bin', r) := NumericBin_addBin obin bin in
        (set_bin i bin' this, r)
    | _, _ => (this, Throw "TypeError")
    end.

(** [Numeric.prototype.addNumeric] *)
Definition addNumeric (other : Numeric) : method Numeric () :=
  fun this =>
    if negb (canAddNumeric this other)
    then (this, Throw "Merging incompatible Numerics.")
    else
      (modify (fun this =>
                 set_nanDiagnostics
                   (mergeSampledStreams (nanDiagnostics this) (numNans this)
                      (nanDiagnostics other) (numNans other)
                      (num_of_nat MAX_DIAGNOSTICS)) this) ;;;
       modify (fun this =>
                 set_sampleValues_
                   (mergeSampledStreams (sampleValues this) (numValues this)
                      (sampleValues other) (numValues other)
                      (Statistics_mean2 (maxNumSampleValues this)
                                        (maxNumSampleValues other))) this) ;;;
       modify (fun this => set_numNans (numNans this + numNans other) this) ;;;
       modify (fun this =>
                 set_running (Running_merge (running this) (running other)) this) ;;;
       this' <- get ;;
       for_of (seq 0 (length (allBins this'))) (addBin_at other))%method this.

(** *** Serialization of a Numeric *)

Record NumericDict : Type := mkNumericDict {
  nd_unit : string;
  nd_min : num;
  nd_max : num;
  nd_numNans : nat;
  nd_nanDiagnostics : option (list DiagnosticDict);
  nd_running : option RunningDict;
  nd_sampleValues : list num;
  nd_maxNumSampleValues : nat;
  nd_underflowBin : BinDict;
  nd_centralBins : list BinDict;
  nd_overflowBin : BinDict
}.

(** [Numeric.prototype.asDict] *)
Definition Numeric_asDict (this : Numeric) : NumericDict :=
  mkNumericDict
    (Unit_asJSON (unit this))
    (rmin (nrange this))
    (rmax (nrange this))
    (numNans this)
    (Some (map Diagnostic_asDict (nanDiagnostics this)))
    (Some (Running_asDict (running this)))
    (sampleValues this)
    (maxNumSampleValues this)
    (NumericBin_asDict (underflowBin this))
    (map NumericBin_asDict (centralBins this))
    (NumericBin_asDict (overflowBin this)).

(** [Numeric.fromDict] *)
Definition Numeric_fromDict (d : NumericDict) : outcome Numeric :=
  let r := Range_fromExplicitRange (nd_min d) (nd_max d) in
  obind (NumericBin_fromDict (nd_underflowBin d)) (fun ub =>
  obind (map_outcome NumericBin_fromDict (nd_centralBins d)) (fun cbs =>
  obind (NumericBin_fromDict (nd_overflowBin d)) (fun ob =>
  obind (Unit_fromJSON (nd_unit d)) (fun u =>
  let n := Numeric_new u r (mkBinInfo ub cbs ob) in
  let n := match nd_running d with
           | Some rd => set_running (Running_fromDict rd) n
           | None => n
           end in
  let n := set_numNans (nd_numNans d) n in
  obind (match nd_nanDiagnostics d with
         | Some dds =>
             obind (map_outcome Diagnostic_fromDict dds)
                   (fun ds => Ok (set_nanDiagnostics ds n))
         | None => Ok n
         end) (fun n =>
  let n := set_maxNumSampleValues (nd_maxNumSampleValues d) n in
  let n := set_sampleValues_ (nd_sampleValues d) n in
  Ok n))))).

(** [Numeric.prototype.clone].  In JavaScript the clone keeps the very
    array of sample values of the original ([asDict] hands it over and
    [fromDict] stores it); the list here is its content. *)
Definition clone (this : Numeric) : outcome Numeric :=
  Numeric_fromDict (Numeric_asDict this).

(** *** NumericBuilder *)

Record NumericBuilder : Type := mkBuilder {
  unit_ : Unit;
  boundaries_ : list num
}.

(** Reading an array out of range gives [undefined], which every use
    below turns into NaN. *)
Definition at_index (l : list num) (i : nat) : num := default NaN (l !! i).

Definition NumericBuilder_new (u : Unit) (minBinBoundary : num) : NumericBuilder :=
  mkBuilder u [minBinBoundary].

Definition minBinBoundary (b : NumericBuilder) : num :=
  at_index (boundaries_ b) 0.

Definition maxBinBoundary (b : NumericBuilder) : num :=
  at_index (boundaries_ b) (length (boundaries_ b) - 1).

(** [addBinBoundary] *)
Definition addBinBoundary (nextMaxBinBoundary : num) : method NumericBuilder () :=
  fun this =>
    if num_le nextMaxBinBoundary (maxBinBoundary this)
    then (this, Throw "The added max bin boundary must be larger than the current max boundary")
    else (mkBuilder (unit_ this) (boundaries_ this ++ [nextMaxBinBoundary]), Ok ()).

(** The integers [1, 2, ..., binCount - 1] of [for (i = 1; i < binCount; i++)]. *)
Definition loop_indices (binCount : Z) : list Z :=
  map (fun k => Z.of_nat k) (seq 1 (Z.to_nat (binCount - 1))).

(** [addLinearBins] *)
Definition addLinearBins (nextMaxBinBoundary : num) (binCount : Z)
    : method NumericBuilder () :=
  fun this =>
    if binCount <=? 0 then (this, Throw "Bin count must be positive")
    else
      let curMaxBinBoundary := maxBinBoundary this in
      if num_ge curMaxBinBoundary nextMaxBinBoundary
      then (this, Throw "The new max bin boundary must be greater than the previous max bin boundary")
      else
        let binWidth :=
          num_div (num_sub nextMaxBinBoundary curMaxBinBoundary) (num_of_Z binCount) in
        (for_of (loop_indices binCount)
           (fun i => addBinBoundary
                       (num_add curMaxBinBoundary (num_mul (num_of_Z i) binWidth))) ;;;
         addBinBoundary nextMaxBinBoundary)%method this.

(** [build] *)
Definition build (this : NumericBuilder) : Numeric :=
  let binInfo :=
    mkBinInfo
      (NumericBin_new
         (Some (Range_fromExplicitRange (num_neg MAX_VALUE) (minBinBoundary this))))
      (map (fun i =>
              NumericBin_new
                (Some (Range_fromExplicitRange
                         (at_index (boundaries_ this) i)
                         (at_index (boundaries_ this) (i + 1)))))
           (seq 0 (length (boundaries_ this) - 1)))
      (NumericBin_new
         (Some (Range_fromExplicitRange (maxBinBoundary this) MAX_VALUE))) in
  Numeric_new (unit_ this)
    (Range_fromExplicitRange (minBinBoundary this) (maxBinBoundary this))
    binInfo.

(** [Numeric.buildFromSamples] *)
Definition buildFromSamples (u : Unit) (samples : list num) : outcome Numeric :=
  let r := Range_new in
  let r :=
    fold_left (fun r sample =>
                 if negb (isNaN sample) then Range_addValue sample r else r)
              samples r in
  let r := if isEmpty r then Range_addValue (Fin 1) r else r in
  let r := if num_eq (rmin r) (rmax r)
           then Range_addValue (num_sub (rmin r) (Fin 1)) r else r in
  let numBins := ceil_sqrt (length samples) in
  let builder := NumericBuilder_new u (rmin r) in
  match addLinearBins (rmax r) numBins builder with
  | (_, Throw m) => Throw m
  | (builder, Ok _) =>
      let result := build builder in
      let result := set_maxNumSampleValues 1000 result in
      Ok (fold_left (fun result sample => Numeric_add sample None result)
                    samples result)
  end.

(** *** Percentiles *)

(** [Math.floor] *)
Definition Math_floor (x : num) : num :=
  match x with
  | Fin q => num_of_Z (Qfloor q)
  | _ => x
  end.

(** The loop of [getApproximatePercentile], entered at index [i] with
    [fuel] iterations left before [i] reaches [allBins.length]. *)
Fixpoint percentile_loop (this : Numeric) (fuel i : nat) (valuesToSkip : num)
    : outcome num :=
  match fuel with
  | O => Throw "Unreachable"
  | S fuel' =>
      match allBins this !! i with
      | None => Throw "Unreachable"
      | Some bin =>
          let valuesToSkip := num_sub valuesToSkip (num_of_nat (count bin)) in
          if num_lt valuesToSkip (Fin 0) then
            if (i =? 0)%nat then Ok (rmax (range bin))
            else if (i =? S (length (centralBins this)))%nat then Ok (rmin (range bin))
            else Ok (Range_center (range bin))
          else percentile_loop this fuel' (S i) valuesToSkip
      end
  end.

(** [getApproximatePercentile] *)
Definition getApproximatePercentile (percent : num) (this : Numeric) : outcome num :=
  if negb (num_ge percent (Fin 0) && num_le percent (Fin 1))
  then Throw "percent must be [0,1]"
  else if (numValues this =? 0)%nat then Ok (Fin 0)
  else
    let valuesToSkip :=
      Math_floor (num_mul (num_sub (num_of_nat (numValues this)) (Fin 1)) percent) in
    percentile_loop this (length (allBins this)) 0 valuesToSkip.

(** *** ScalarNumeric *)

(** What a dictionary field can hold where a number is expected. *)
Inductive jsvalue : Type :=
  | JNum (x : num)
  | JStr (s : string).

Record ScalarNumeric : Type := mkScalar {
  s_unit : Unit;
  value : num
}.

Record ScalarDict : Type := mkScalarDict {
  sd_unit : string;
  sd_type : option string;
  sd_value : option jsvalue
}.

(** The constructor [ScalarNumeric(unit, value)]; [None] is [undefined]. *)
Definition ScalarNumeric_new (u : Unit) (v : option jsvalue) : outcome ScalarNumeric :=
  match v with
  | Some (JNum x) => Ok (mkScalar u x)
  | _ => Throw "Expected value to be number"
  end.

Definition ScalarNumeric_asDictInto_ (this : ScalarNumeric) (d : ScalarDict) : ScalarDict :=
  let d := mkScalarDict (sd_unit d) (Some "scalar"%string) (sd_value d) in
  if num_eq (value this) PosInf
  then mkScalarDict (sd_unit d) (sd_type d) (Some (JStr "Infinity"))
  else if num_eq (value this) NegInf
  then mkScalarDict (sd_unit d) (sd_type d) (Some (JStr "-Infinity"))
  else if isNaN (value this)
  then mkScalarDict (sd_unit d) (sd_type d) (Some (JStr "NaN"))
  else mkScalarDict (sd_unit d) (sd_type d) (Some (JNum (value this))).

(** [NumericBase.prototype.asDict] on a ScalarNumeric *)
Definition ScalarNumeric_asDict (this : ScalarNumeric) : ScalarDict :=
  let d := mkScalarDict (Unit_asJSON (s_unit this)) None None in
  ScalarNumeric_asDictInto_ this d.

(** [ScalarNumeric.fromDict] *)
Definition ScalarNumeric_fromDict (d : ScalarDict) : outcome ScalarNumeric :=
  let d :=
    match sd_value d with
    | Some (JStr s) =>
        if String.eqb s "-Infinity"
        then mkScalarDict (sd_unit d) (sd_type d) (Some (JNum NegInf))
        else if String.eqb s "Infinity"
        then mkScalarDict (sd_unit d) (sd_type d) (Some (JNum PosInf))
        else if String.eqb s "NaN"
        then mkScalarDict (sd_unit d) (sd_type d) (Some (JNum NaN))
        else d
    | _ => d
    end in
  obind (Unit_fromJSON (sd_unit d)) (fun u => ScalarNumeric_new u (sd_value d)).

Definition ScalarNumeric_sampleValuesInto (this : ScalarNumeric) (samples : list num)
    : list num :=
  samples ++ [value this].

(** *** NumericBase *)

Inductive NumericBase : Type :=
  | IsNumeric (n : Numeric)
  | IsScalar (s : ScalarNumeric).

Definition base_unit (x : NumericBase) : Unit :=
  match x with
  | IsNumeric n => unit n
  | IsScalar s => s_unit s
  end.

Definition sampleValuesInto (x : NumericBase) (samples : list num) : list num :=
  match x with
  | IsNumeric n => Numeric_sampleValuesInto n samples
  | IsScalar s => ScalarNumeric_sampleValuesInto s samples
  end.

(** The second branch of [merge]: build from the raw samples. *)
Definition merge_fromSamples (this other : NumericBase) : outcome Numeric :=
  let samples := [] in
  let samples := sampleValuesInto this samples in
  let samples := sampleValuesInto other samples in
  buildFromSamples (base_unit this) samples.

(** [NumericBase.prototype.merge] *)
Definition merge (this other : NumericBase) : outcome Numeric :=
  if negb (bool_decide (base_unit this = base_unit other))
  then Throw "Merging Numerics with different units"
  else
    match this, other with
    | IsNumeric a, IsNumeric b =>
        if canAddNumeric a b then
          obind (clone a) (fun result =>
          obind (clone b) (fun other' =>
          match addNumeric other' result with
          | (result, Ok _) => Ok result
          | (_, Throw m) => Throw m
          end))
        else merge_fromSamples this other
    | _, _ => merge_fromSamples this other
    end.

(** *** Significance *)

(** The truth value JavaScript gives a number. *)
Definition truthy (x : num) : bool :=
  match x with
  | NaN => false
  | Fin q => negb (Qeq_bool q 0)
  | _ => true
  end.

(** [opt_alpha || DEFAULT_ALPHA]; [None] is a missing argument. *)
Definition alpha_or_default (opt_alpha : option num) : num :=
  match opt_alpha with
  | Some a => if truthy a then a else DEFAULT_ALPHA
  | None => DEFAULT_ALPHA
  end.

(** [getDifferenceSignificance] *)
Definition getDifferenceSignificance (other : NumericBase) (opt_alpha : option num)
    (this : Numeric) : outcome Significance :=
  if negb (bool_decide (unit this = base_unit other))
  then Throw "Cannot compare Numerics with different units"
  else
    match improvementDirection (unit this) with
    | DIR_DONT_CARE => Ok DONT_CARE
    | _ =>
        match other with
        | IsScalar _ => Throw "Unable to compute a p-value"
        | IsNumeric other =>
            let p := mwu_test_p (sampleValues this) (sampleValues other) in
            if num_lt p (alpha_or_default opt_alpha)
            then Ok SIGNIFICANT
            else Ok INSIGNIFICANT
        end
    end.

(** *** More of the builder and of the queries *)





(** The histogram after [add] of each value in turn, without diagnostic. *)
Definition add_all (values : list num) (h : Numeric) : Numeric :=
  fold_left (fun h v => Numeric_add v None h) values h.





(** *** Vocabulary of the properties *)

(** The number of samples of a list that are NaN. *)
Definition count_NaN (values : list num) : nat :=
  length (filter (fun v => isNaN v = true) values).



(** No range of the histogram is an empty one. *)
Definition ranges_set (h : Numeric) : bool :=
  negb (isEmpty (nrange h))
  && forallb (fun b => negb (isEmpty (range b))) (allBins h).

(** The largest count among the bins. *)
Definition max_bin_count (h : Numeric) : nat :=
  max_list_with count (allBins h).

(** The number of values held by the first [k] bins. *)
Definition counts_upto (h : Numeric) (k : nat) : Z :=
  Z.of_nat (sum_list_with count (take k (allBins h))).

(** What a percentile reports for the bin at index [k]: the upper bound of
    the underflow bin, the lower bound of the overflow bin, the midpoint of
    a central bin. *)
Definition bin_value (h : Numeric) (k : nat) (bin : NumericBin) : num :=
  if decide (k = 0%nat) then rmax (range bin)
  else if decide (k = S (length (centralBins h))) then rmin (range bin)
  else Range_center (range bin).


(** The bin that [addBin] makes of a bin and its counterpart. *)
Definition combined_bin (a b : NumericBin) : NumericBin :=
  mkBin (range a) (count a + count b)
        (mergeSampledStreams (diagnostics a) (count a) (diagnostics b) (count b)
           (num_of_nat MAX_DIAGNOSTICS)).

(** The layout invariant of the data model: consecutive bins share a finite
    boundary, and no central bin is reversed. *)
Definition layout_ok (h : Numeric) : bool :=
  let bs := allBins h in
  forallb (fun i =>
             match bs !! i, bs !! (S i) with
             | Some a, Some b =>
                 isFinite (rmax (range a)) && isFinite (rmin (range b))
                 && num_eq (rmax (range a)) (rmin (range b))
             | _, _ => false
             end)
          (seq 0 (length bs - 1))
  && forallb (fun b => num_le (rmin (range b)) (rmax (range b))) (centralBins h).

(** The two bounds of a bin. *)
Definition bounds (b : NumericBin) : num * num :=
  (rmin (range b), rmax (range b)).

(** The fields of a histogram other than its bins, in the order unit,
    range, numNans, nanDiagnostics, running, maxCount_, sampleValues_,
    maxNumSampleValues. *)
Definition other_fields (h : Numeric) :=
  (unit h, nrange h, numNans h, nanDiagnostics h, running h, maxCount_ h,
   sampleValues_ h, maxNumSampleValues h).


(** A range that is empty or runs from a finite number or +Infinity to a
    finite number or +Infinity. *)
Definition no_lower_infinity (r : Range) : bool :=
  isEmpty r
  || match rmin r, rmax r with
     | Fin _, Fin _ | Fin _, PosInf | PosInf, PosInf => true
     | _, _ => false
     end.

(** A range that is empty or has finite bounds in order. *)
Definition finite_range (r : Range) : Prop :=
  isEmpty r = true
  \/ exists a b : Q, r = mkRange false (Fin a) (Fin b) /\ (a <= b)%Q.

(** Boundaries as a builder accumulates them from finite numbers: at
    least one, all finite, each strictly below the next. *)
Definition sorted_boundaries (l : list num) : Prop :=
  l <> []
  /\ (forall i x, l !! i = Some x -> isFinite x = true)
  /\ (forall i x y, l !! i = Some x -> l !! S i = Some y -> num_lt x y = true).

(** Samples that are finite numbers or NaN. *)
Definition finite_or_NaN (x : num) : bool :=
  match x with
  | NaN | Fin _ => true
  | _ => false
  end.

End Numeric.

(** ** A concrete choice of collaborators, to run the code on examples *)

Module Demo.

Inductive DemoUnit : Type :=
  | ms_smallerIsBetter
  | count_biggerIsBetter
  | unitlessNumber.

#[export] Instance DemoUnit_eq_dec : EqDecision DemoUnit.
Proof. solve_decision. Defined.

Definition DemoUnit_name (u : DemoUnit) : string :=
  match u with
  | ms_smallerIsBetter => "ms_smallerIsBetter"
  | count_biggerIsBetter => "count_biggerIsBetter"
  | unitlessNumber => "unitless"
  end.

Definition DemoUnit_byName (s : string) : outcome DemoUnit :=
  if String.eqb s "ms_smallerIsBetter" then Ok ms_smallerIsBetter
  else if String.eqb s "count_biggerIsBetter" then Ok count_biggerIsBetter
  else if String.eqb s "unitless" then Ok unitlessNumber
  else Throw "Unrecognized unit".

Definition DemoUnit_direction (u : DemoUnit) : ImprovementDirection :=
  match u with
  | ms_smallerIsBetter => SMALLER_IS_BETTER
  | count_biggerIsBetter => BIGGER_IS_BETTER
  | unitlessNumber => DIR_DONT_CARE
  end.

(** Running statistics reduced to the count and the sum of the values. *)
Definition DemoRunning : Type := nat * num.

(** A sampler that keeps the first [numSamples] elements offered. *)
Definition keep_first {A} (samples : list A) (streamLength : nat) (x : A)
    (numSamples : nat) : list A :=
  if (length samples <? numSamples)%nat then samples ++ [x] else samples.

Definition merge_first {A} (a : list A) (lenA : nat) (b : list A) (lenB : nat)
    (numSamples : num) : list A :=
  match Math_floor numSamples with
  | Fin q => take (Z.to_nat (Qfloor q)) (a ++ b)
  | _ => a ++ b
  end.

(** A stand-in for the rank test: identical samples are never told apart,
    different ones always are. *)
Fixpoint same_samples (a b : list num) : bool :=
  match a, b with
  | [], [] => true
  | x :: a', y :: b' => num_eq x y && same_samples a' b'
  | _, _ => false
  end.

Definition demo_p (a b : list num) : num :=
  if same_samples a b then Fin 1 else Fin (1 # 100).

#[export] Instance demo : Collaborators := {|
  Unit := DemoUnit;
  improvementDirection := DemoUnit_direction;
  Unit_asJSON := DemoUnit_name;
  Unit_fromJSON := DemoUnit_byName;
  RunningStatistics := DemoRunning;
  RunningDict := DemoRunning;
  Running_new := (0%nat, Fin 0);
  Running_add := fun v r => (S (fst r), num_add (snd r) v);
  Running_merge := fun a b => ((fst a + fst b)%nat, num_add (snd a) (snd b));
  Running_asDict := fun r => r;
  Running_fromDict := fun r => r;
  Diagnostic := string;
  DiagnosticDict := string;
  Diagnostic_asDictInto_ := fun d => d;
  Diagnostic_findTypeInfoWithName := fun _ => Some (fun d => Ok d);
  Diagnostic_typeName := fun d => d;
  uniformlySampleStream := @keep_first;
  mergeSampledStreams := @merge_first;
  mwu_test_p := demo_p
|}.

(** [new NumericBuilder(unit, 0).addLinearBins(10, 2)] *)
Definition builder_0_10_2 : NumericBuilder * outcome () :=
  addLinearBins (num_of_Z 10) 2 (NumericBuilder_new ms_smallerIsBetter (num_of_Z 0)).

Definition numeric_0_10_2 : Numeric := build (fst builder_0_10_2).

(** The same histogram after [add(7)]. *)
Definition numeric_with_7 : Numeric := Numeric_add (num_of_Z 7) None numeric_0_10_2.

(** A histogram with the two bins of a fresh builder, and a scalar, both
    of a unit whose improvement direction is "don't care". *)
Definition unitless_numeric : Numeric :=
  build (NumericBuilder_new unitlessNumber (num_of_Z 0)).

Definition unitless_scalar : ScalarNumeric := mkScalar unitlessNumber (num_of_Z 1).

(** Five linear bins over [0, 10] holding the values 1, 2, ..., 10. *)
Definition numeric_1_to_10 : Numeric :=
  fold_left (fun h v => Numeric_add (num_of_Z v) None h)
    [1; 2; 3; 4; 5; 6; 7; 8; 9; 10]
    (build (fst (addLinearBins (num_of_Z 10) 5
                   (NumericBuilder_new ms_smallerIsBetter (num_of_Z 0))))).


(** An empty histogram of another layout than [numeric_0_10_2]. *)
Definition numeric_0 : Numeric :=
  build (NumericBuilder_new ms_smallerIsBetter (num_of_Z 0)).

(** The histogram [numeric_0_10_2] after [add(2)] and [add(NaN)]. *)
Definition numeric_with_2_NaN : Numeric :=
  add_all [num_of_Z 2; NaN] numeric_0_10_2.

End Demo.

(** ** Properties *)

Section Properties.
Context `{C : Collaborators}.

(** *** The bins as an array *)

Lemma length_allBins (h : Numeric) :
  length (allBins h) = S (S (length (centralBins h))).
Proof.
  unfold allBins. rewrite !length_app. simpl. lia.
Qed.

Lemma allBins_set_bin (i : nat) (b : NumericBin) (h : Numeric) :
  (i < length (allBins h))%nat ->
  allBins (set_bin i b h) = <[i := b]> (allBins h).
Proof.
  rewrite length_allBins. intros Hi.
  unfold allBins, set_bin. simpl.
  destruct i as [|j]; simpl.
  - destruct (decide (0 = S (length (centralBins h)))%nat); [lia|reflexivity].
  - f_equal.
    destruct (decide (S j = S (length (centralBins h)))) as [E|E].
    + injection E as ->.
      rewrite list_insert_ge by lia.
      rewrite insert_app_r_alt by lia.
      rewrite Nat.sub_diag. reflexivity.
    + rewrite insert_app_l by lia. reflexivity.
Qed.

Lemma other_fields_set_bin (i : nat) (b : NumericBin) (h : Numeric) :
  other_fields (set_bin i b h) = other_fields h.
Proof. reflexivity. Qed.

Lemma allBins_same_bins (h h' : Numeric) :
  underflowBin h' = underflowBin h ->
  centralBins h' = centralBins h ->
  overflowBin h' = overflowBin h ->
  allBins h' = allBins h.
Proof. unfold allBins. intros -> -> ->. reflexivity. Qed.

(** *** Numbers *)

Lemma Qred_inject_Z (z : Z) : Qred (inject_Z z) = inject_Z z.
Proof.
  unfold Qred, inject_Z.
  pose proof (Z.ggcd_gcd z 1) as Hg.
  pose proof (Z.ggcd_correct_divisors z 1) as Hd.
  destruct (Z.ggcd z 1) as (g, (aa, bb)). simpl in *.
  rewrite Z.gcd_1_r in Hg. subst g. destruct Hd as [Ha Hb].
  f_equal; [lia|].
  replace bb with 1 by lia. reflexivity.
Qed.

Lemma num_sub_of_Z (a b : Z) :
  num_sub (num_of_Z a) (num_of_Z b) = num_of_Z (a - b).
Proof.
  unfold num_sub, num_of_Z, num_neg, num_add. f_equal.
  rewrite <- (Qred_inject_Z (a - b)).
  apply Qred_complete. rewrite Qred_correct.
  unfold Qeq, inject_Z. simpl. lia.
Qed.

Lemma num_lt_of_Z_0 (z : Z) : num_lt (num_of_Z z) (Fin 0) = (z <? 0).
Proof.
  unfold num_lt, num_of_Z, Qle_bool, inject_Z. simpl.
  destruct (Z.leb_spec 0 (z * 1)), (Z.ltb_spec z 0); simpl; lia.
Qed.

Lemma num_lt_Fin (a b : Q) : num_lt (Fin a) (Fin b) = true <-> (a < b)%Q.
Proof.
  simpl. rewrite negb_true_iff, <- not_true_iff_false, Qle_bool_iff.
  split; [apply Qnot_le_lt | apply Qlt_not_le].
Qed.


Lemma num_le_Fin_false (a b : Q) : num_le (Fin a) (Fin b) = false <-> (b < a)%Q.
Proof.
  simpl. rewrite <- not_true_iff_false, Qle_bool_iff.
  split; [apply Qnot_le_lt | apply Qlt_not_le].
Qed.

Lemma num_eq_Fin (a b : Q) : num_eq (Fin a) (Fin b) = true <-> (a == b)%Q.
Proof. simpl. apply Qeq_bool_iff. Qed.

(** *** The cached maximum on the paths that maintain it *)

Lemma max_list_with_insert {A} (f : A -> nat) (l : list A) (i : nat) (a b : A) :
  l !! i = Some a ->
  (f a <= f b)%nat ->
  max_list_with f (<[i := b]> l) = Nat.max (max_list_with f l) (f b).
Proof.
  revert i. induction l as [|x l IH]; intros [|i] Hi Hab; simpl in *;
    try discriminate.
  - injection Hi as ->. lia.
  - rewrite (IH i Hi Hab). lia.
Qed.

Lemma fold_maxCount (l : list NumericBin) :
  forall h : Numeric,
    let h' := fold_left (fun this bin =>
                           if (maxCount_ this <? count bin)%nat
                           then set_maxCount_ (count bin) this else this) l h in
    maxCount_ h' = Nat.max (maxCount_ h) (max_list_with count l)
    /\ underflowBin h' = underflowBin h
    /\ centralBins h' = centralBins h
    /\ overflowBin h' = overflowBin h.
Proof.
  induction l as [|b l IH]; intros h; simpl.
  - repeat split. lia.
  - destruct (IH (if (maxCount_ h <? count b)%nat
                  then set_maxCount_ (count b) h else h)) as (Hm & Hu & Hc & Ho).
    rewrite Hm, Hu, Hc, Ho.
    destruct (Nat.ltb_spec (maxCount_ h) (count b)); simpl; repeat split; lia.
Qed.

(** The constructor leaves the cache at the largest count of the bins it
    is given: this is what a load, a clone and a build go through. *)
Lemma Numeric_new_maxCount (u : Unit) (r : Range) (binInfo : BinInfo) :
  maxCount_ (Numeric_new u r binInfo) = max_bin_count (Numeric_new u r binInfo).
Proof.
  unfold Numeric_new, max_bin_count.
  match goal with
  | |- context [fold_left ?f ?l ?h] =>
      destruct (fold_maxCount l h) as (Hm & Hu & Hc & Ho);
      set (h' := fold_left f l h) in *
  end.
  cbn [maxCount_ set_maxNumSampleValues set_sampleValues_].
  rewrite Hm.
  unfold allBins.
  cbn [underflowBin centralBins overflowBin set_maxNumSampleValues set_sampleValues_].
  rewrite Hu, Hc, Ho. simpl. lia.
Qed.

Lemma getBinForValue_lt (value : num) (h : Numeric) :
  (getBinForValue value h < length (allBins h))%nat.
Proof.
  unfold getBinForValue.
  match goal with
  | |- context [allBins h !! ?i] => destruct (allBins h !! i) eqn:E
  end.
  - eapply lookup_lt_Some. exact E.
  - rewrite length_allBins. lia.
Qed.

(** [add] keeps the cache equal to the largest count. *)
Lemma Numeric_add_maxCount (value : num) (opt_diagnostic : option Diagnostic)
    (h : Numeric) :
  maxCount_ h = max_bin_count h ->
  maxCount_ (Numeric_add value opt_diagnostic h)
  = max_bin_count (Numeric_add value opt_diagnostic h).
Proof.
  intros Hinv. unfold Numeric_add.
  match goal with
  | |- context [set_sampleValues_ ?vs ?s] => generalize vs; set (s1 := s)
  end.
  intros vs.
  change (maxCount_ s1 = max_bin_count s1).
  subst s1.
  destruct (isNaN value).
  - destruct opt_diagnostic; exact Hinv.
  - pose proof (getBinForValue_lt value h) as Hlt.
    destruct (allBins h !! getBinForValue value h) as [bin|] eqn:Hbin;
      [|exact Hinv].
    set (bin' := NumericBin_add value opt_diagnostic bin).
    assert (Hc : count bin' = S (count bin)).
    { unfold bin', NumericBin_add. destruct opt_diagnostic; simpl; lia. }
    assert (Hmax : max_bin_count (set_bin (getBinForValue value h) bin' h)
                   = Nat.max (max_bin_count h) (count bin')).
    { unfold max_bin_count. rewrite allBins_set_bin by exact Hlt.
      apply (max_list_with_insert _ _ _ bin); [exact Hbin | lia]. }
    match goal with
    | |- context [if ?c then _ else _] => destruct c eqn:Hcmp
    end.
    + apply Nat.ltb_lt in Hcmp. cbn [maxCount_ set_running set_maxCount_] in *.
      unfold max_bin_count in *.
      change (count bin' = max_list_with count
                (allBins (set_bin (getBinForValue value h) bin' h))).
      rewrite Hmax. simpl in Hcmp. lia.
    + apply Nat.ltb_ge in Hcmp. cbn [maxCount_ set_running] in *.
      unfold max_bin_count in *.
      change (maxCount_ h = max_list_with count
                (allBins (set_bin (getBinForValue value h) bin' h))).
      rewrite Hmax. simpl in Hcmp. lia.
Qed.

(** *** The builder *)

Lemma maxBinBoundary_push (u : Unit) (l : list num) (x : num) :
  maxBinBoundary (mkBuilder u (l ++ [x])) = x.
Proof.
  unfold maxBinBoundary, at_index. simpl.
  rewrite length_app. simpl.
  replace (length l + 1 - 1)%nat with (length l + 0)%nat by lia.
  rewrite lookup_app_r by lia.
  replace (length l + 0 - length l)%nat with 0%nat by lia. reflexivity.
Qed.

Lemma addBinBoundary_ok (b : NumericBuilder) (m x : Q) :
  maxBinBoundary b = Fin m ->
  (m < x)%Q ->
  addBinBoundary (Fin x) b = (mkBuilder (unit_ b) (boundaries_ b ++ [Fin x]), Ok ()).
Proof.
  intros Hm Hlt. unfold addBinBoundary. rewrite Hm.
  rewrite (proj2 (num_le_Fin_false x m) Hlt). reflexivity.
Qed.

(** The boundaries that the loop of [addLinearBins] adds are accepted one
    after the other. *)
Lemma linear_loop_ok (cur w : Q) :
  (0 < w)%Q ->
  forall (m k : nat) (b : NumericBuilder) (m0 : Q),
    maxBinBoundary b = Fin m0 ->
    (m0 < cur + inject_Z (Z.of_nat k) * w)%Q ->
    exists b' m',
      for_of (map (fun j => Z.of_nat j) (seq k m))
        (fun i => addBinBoundary
                    (num_add (Fin cur) (num_mul (num_of_Z i) (Fin w)))) b
      = (b', Ok ())
      /\ maxBinBoundary b' = Fin m'
      /\ (m' < cur + inject_Z (Z.of_nat (k + m)) * w)%Q
      /\ unit_ b' = unit_ b
      /\ length (boundaries_ b') = (length (boundaries_ b) + m)%nat.
Proof.
  intros Hw. induction m as [|m IH]; intros k b m0 Hmax Hlt.
  - exists b, m0. simpl. rewrite Nat.add_0_r. repeat split; auto.
  - set (x := Qred (cur + Qred (inject_Z (Z.of_nat k) * w))).
    assert (Hx : (x == cur + inject_Z (Z.of_nat k) * w)%Q).
    { unfold x. rewrite !Qred_correct. reflexivity. }
    destruct (IH (S k) (mkBuilder (unit_ b) (boundaries_ b ++ [Fin x])) x)
      as (b' & m' & Hrun & Hmax' & Hlt' & Hu & Hlen).
    + apply maxBinBoundary_push.
    + rewrite Hx. rewrite Nat2Z.inj_succ. unfold Z.succ.
      rewrite inject_Z_plus.
      generalize (inject_Z (Z.of_nat k)). intros kk.
      assert (E : ((kk + inject_Z 1) * w == kk * w + w)%Q) by ring.
      rewrite E. lra.
    + exists b', m'. split; [|split; [exact Hmax'|split; [|split]]].
      * cbn [seq map for_of]. unfold bind at 1.
        change (num_add (Fin cur) (num_mul (num_of_Z (Z.of_nat k)) (Fin w)))
          with (Fin x).
        rewrite (addBinBoundary_ok b m0 x Hmax) by (rewrite Hx; exact Hlt).
        exact Hrun.
      * replace (k + S m)%nat with (S k + m)%nat by lia. exact Hlt'.
      * rewrite Hu. reflexivity.
      * rewrite Hlen. simpl. rewrite length_app. simpl. lia.
Qed.

(** No call on a builder changes its unit. *)
Lemma addBinBoundary_unit (x : num) (b : NumericBuilder) :
  unit_ (fst (addBinBoundary x b)) = unit_ b.
Proof.
  unfold addBinBoundary. destruct (num_le x (maxBinBoundary b)); reflexivity.
Qed.

Lemma for_of_fst_invariant {S A} (P : S -> Prop) (body : A -> method S ()) (xs : list A) :
  (forall x s, P s -> P (fst (body x s))) ->
  forall s, P s -> P (fst (for_of xs body s)).
Proof.
  intros Hbody. induction xs as [|x xs IH]; intros s Hs; simpl; [exact Hs|].
  unfold bind. specialize (Hbody x s Hs).
  destruct (body x s) as [s1 [[]|m]]; simpl in *; auto.
Qed.

Lemma addLinearBins_unit (next : num) (n : Z) (b : NumericBuilder) :
  unit_ (fst (addLinearBins next n b)) = unit_ b.
Proof.
  unfold addLinearBins.
  destruct (n <=? 0); [reflexivity|].
  destruct (num_ge (maxBinBoundary b) next); [reflexivity|].
  cbv zeta. unfold bind.
  match goal with
  | |- context [for_of ?xs ?body b] =>
      pose proof (for_of_fst_invariant (fun s => unit_ s = unit_ b) body xs) as Hloop;
      destruct (for_of xs body b) as [b1 [[]|m]] eqn:E
  end.
  - rewrite addBinBoundary_unit.
    change b1 with (fst (b1, @Ok () ())). rewrite <- E. apply Hloop; [|reflexivity].
    intros x s Hs. rewrite addBinBoundary_unit. exact Hs.
  - change (unit_ (fst (b1, @Throw () m)) = unit_ b). rewrite <- E.
    apply Hloop; [|reflexivity].
    intros x s Hs. rewrite addBinBoundary_unit. exact Hs.
Qed.

(** [addLinearBins] towards a larger finite boundary with a positive count
    does not throw, and adds that many boundaries. *)
Lemma addLinearBins_ok (b : NumericBuilder) (cur next : Q) (n : Z) :
  maxBinBoundary b = Fin cur ->
  (cur < next)%Q ->
  0 < n ->
  exists b',
    addLinearBins (Fin next) n b = (b', Ok ())
    /\ unit_ b' = unit_ b
    /\ length (boundaries_ b') = (length (boundaries_ b) + Z.to_nat n)%nat.
Proof.
  intros Hmax Hlt Hn. unfold addLinearBins.
  destruct (Z.leb_spec n 0) as [?|_]; [lia|].
  rewrite Hmax. unfold num_ge.
  rewrite (proj2 (num_le_Fin_false next cur) Hlt).
  assert (Hn0 : ~ (inject_Z n == 0)%Q).
  { unfold Qeq, inject_Z. simpl. lia. }
  assert (HnQ : (0 < inject_Z n)%Q).
  { unfold Qlt, inject_Z. simpl. lia. }
  set (w := Qred (Qred (next + Qred (- cur)) / inject_Z n)).
  assert (Hbw : num_div (num_sub (Fin next) (Fin cur)) (num_of_Z n) = Fin w).
  { unfold num_div, num_sub, num_neg, num_add, num_of_Z.
    destruct (Qeq_bool (inject_Z n) 0) eqn:E; [|reflexivity].
    apply Qeq_bool_iff in E. contradiction. }
  rewrite Hbw.
  assert (Hw : (w == (next - cur) / inject_Z n)%Q).
  { unfold w. rewrite !Qred_correct. reflexivity. }
  assert (Hwpos : (0 < w)%Q).
  { rewrite Hw. apply Qlt_shift_div_l; [exact HnQ | lra]. }
  assert (Hnw : (inject_Z n * w == next - cur)%Q).
  { rewrite Hw. field. exact Hn0. }
  destruct (linear_loop_ok cur w Hwpos (Z.to_nat (n - 1)) 1 b cur Hmax)
    as (b' & m' & Hrun & Hmax' & Hlt' & Hu & Hlen).
  { change (inject_Z (Z.of_nat 1)) with 1%Q. lra. }
  unfold bind, loop_indices. rewrite Hrun.
  replace (Z.of_nat (1 + Z.to_nat (n - 1))) with n in Hlt' by lia.
  rewrite (addBinBoundary_ok b' m' next Hmax') by lra.
  eexists. split; [reflexivity|]. simpl. split; [exact Hu|].
  rewrite length_app, Hlen. simpl. lia.
Qed.

(** *** Building from raw samples *)

Lemma Range_addValue_finite (r : Range) (v : Q) :
  finite_range r -> finite_range (Range_addValue (Fin v) r).
Proof.
  intros [He|(a & b & -> & Hab)]; right; unfold Range_addValue.
  - rewrite He. exists v, v. split; [reflexivity | lra].
  - simpl.
    destruct (Qle_bool a v) eqn:E1, (Qle_bool v b) eqn:E2; simpl;
      eexists; eexists; (split; [reflexivity|]);
      rewrite <- ?not_true_iff_false, ?Qle_bool_iff in *; lra.
Qed.

Lemma samples_range (samples : list num) :
  forallb finite_or_NaN samples = true ->
  forall r : Range,
    finite_range r ->
    finite_range
      (fold_left (fun r sample =>
                    if negb (isNaN sample) then Range_addValue sample r else r)
                 samples r).
Proof.
  induction samples as [|x samples IH]; intros Hall r Hr; simpl in *; [exact Hr|].
  apply andb_prop in Hall as [Hx Hall].
  apply IH; [exact Hall|].
  destruct x; simpl in *; try discriminate; [exact Hr|].
  apply Range_addValue_finite. exact Hr.
Qed.

(** After the two adjustments of [buildFromSamples] the range has two
    finite bounds, the lower one strictly below the upper one. *)
Lemma widened_range (r : Range) :
  finite_range r ->
  let r1 := if isEmpty r then Range_addValue (Fin 1) r else r in
  let r2 := if num_eq (rmin r1) (rmax r1)
            then Range_addValue (num_sub (rmin r1) (Fin 1)) r1 else r1 in
  exists a b : Q, rmin r2 = Fin a /\ rmax r2 = Fin b /\ (a < b)%Q.
Proof.
  intros Hr r1.
  assert (H1 : exists a b : Q, r1 = mkRange false (Fin a) (Fin b) /\ (a <= b)%Q).
  { unfold r1. destruct Hr as [He|(a & b & -> & Hab)].
    - rewrite He. unfold Range_addValue. rewrite He.
      exists 1%Q, 1%Q. split; [reflexivity | lra].
    - simpl. eauto. }
  destruct H1 as (a & b & -> & Hab). simpl.
  destruct (Qeq_bool a b) eqn:E.
  - apply Qeq_bool_iff in E.
    unfold Range_addValue, num_sub, num_neg, num_add. simpl.
    set (v := Qred (a + Qred (- (1)))).
    assert (Hv : (v == a - 1)%Q) by (unfold v; rewrite !Qred_correct; reflexivity).
    destruct (Qle_bool a v) eqn:E1.
    { apply Qle_bool_iff in E1. lra. }
    destruct (Qle_bool v b) eqn:E2; simpl.
    + exists v, b. repeat split. lra.
    + rewrite <- not_true_iff_false, Qle_bool_iff in E2. lra.
  - exists a, b. repeat split.
    rewrite <- not_true_iff_false, Qeq_bool_iff in E. lra.
Qed.



Lemma ceil_sqrt_pos (n : nat) : (0 < n)%nat -> 0 < ceil_sqrt n.
Proof.
  intros Hn. unfold ceil_sqrt.
  assert (0 < Z.sqrt (Z.of_nat n)) by (apply Z.sqrt_pos; lia).
  destruct (_ =? _); lia.
Qed.


(** *** Percentiles *)

Lemma numValues_sum (h : Numeric) :
  numValues h = sum_list_with count (allBins h).
Proof.
  unfold numValues. induction (allBins h) as [|b l IH]; simpl; [reflexivity|].
  rewrite IH. reflexivity.
Qed.

Lemma counts_upto_all (h : Numeric) :
  counts_upto h (length (allBins h)) = Z.of_nat (numValues h).
Proof.
  unfold counts_upto. rewrite take_ge by lia. rewrite numValues_sum. reflexivity.
Qed.

Lemma counts_upto_S (h : Numeric) (i : nat) (bin : NumericBin) :
  allBins h !! i = Some bin ->
  counts_upto h (S i) = counts_upto h i + Z.of_nat (count bin).
Proof.
  intros Hbin. unfold counts_upto.
  rewrite (take_S_r _ _ _ Hbin), sum_list_with_app. simpl. lia.
Qed.

Lemma counts_upto_0 (h : Numeric) : counts_upto h 0 = 0.
Proof. reflexivity. Qed.

(** The loop stops at the first bin where the running difference goes
    negative, and there is one as long as [skip] is below the total. *)
Lemma percentile_loop_walk (this : Numeric) (skip : Z) :
  forall fuel i : nat,
    (i + fuel)%nat = length (allBins this) ->
    counts_upto this i <= skip ->
    skip < Z.of_nat (numValues this) ->
    exists (k : nat) (bin : NumericBin),
      (i <= k)%nat
      /\ allBins this !! k = Some bin
      /\ (forall j, (i <= j <= k)%nat -> counts_upto this j <= skip)
      /\ skip < counts_upto this (S k)
      /\ percentile_loop this fuel i (num_of_Z (skip - counts_upto this i))
         = Ok (bin_value this k bin).
Proof.
  induction fuel as [|fuel IH]; intros i Hlen Hle Hlt.
  - rewrite Nat.add_0_r in Hlen. subst i. rewrite counts_upto_all in Hle. lia.
  - destruct (lookup_lt_is_Some_2 (allBins this) i) as [bin Hbin]; [lia|].
    pose proof (counts_upto_S this i bin Hbin) as HS.
    cbn [percentile_loop]. rewrite Hbin.
    unfold num_of_nat. rewrite num_sub_of_Z, num_lt_of_Z_0.
    replace (skip - counts_upto this i - Z.of_nat (count bin))
      with (skip - counts_upto this (S i)) by lia.
    destruct (Z.ltb_spec (skip - counts_upto this (S i)) 0) as [Hneg|Hpos].
    + exists i, bin. split; [lia|]. split; [exact Hbin|].
      split; [intros j Hj; replace j with i by lia; exact Hle|].
      split; [lia|].
      unfold bin_value.
      destruct (decide (i = 0%nat)) as [->|Hi0]; [reflexivity|].
      rewrite (proj2 (Nat.eqb_neq i 0) Hi0).
      destruct (decide (i = S (length (centralBins this)))) as [->|Hil].
      * rewrite Nat.eqb_refl. reflexivity.
      * rewrite (proj2 (Nat.eqb_neq _ _) Hil). reflexivity.
    + destruct (IH (S i)) as (k & bin' & Hk & Hbin' & Hall & Hlt' & Hrun);
        [lia | lia | exact Hlt |].
      exists k, bin'. split; [lia|]. split; [exact Hbin'|].
      split.
      { intros j Hj. destruct (decide (j = i)) as [->|Hne]; [exact Hle|].
        apply Hall. lia. }
      split; [exact Hlt'|exact Hrun].
Qed.


Lemma skip_value (n : nat) (q : Q) :
  Math_floor (num_mul (num_sub (num_of_nat n) (Fin 1)) (Fin q))
  = num_of_Z (Qfloor (inject_Z (Z.of_nat n - 1) * q)).
Proof.
  change (Fin 1) with (num_of_Z 1). unfold num_of_nat.
  rewrite num_sub_of_Z. unfold num_of_Z at 1, num_mul, Math_floor.
  rewrite Qred_correct. reflexivity.
Qed.

Lemma skip_bounds (n : nat) (q : Q) :
  (0 < n)%nat -> (0 <= q <= 1)%Q ->
  0 <= Qfloor (inject_Z (Z.of_nat n - 1) * q) < Z.of_nat n.
Proof.
  intros Hn [Hq0 Hq1].
  assert (Hm : (0 <= inject_Z (Z.of_nat n - 1))%Q).
  { unfold Qle, inject_Z. simpl. lia. }
  split.
  - change 0 with (Qfloor 0). apply Qfloor_resp_le.
    apply Qmult_le_0_compat; assumption.
  - apply Z.le_lt_trans with (Z.of_nat n - 1); [|lia].
    rewrite <- (Qfloor_Z (Z.of_nat n - 1)) at 2.
    apply Qfloor_resp_le.
    rewrite <- (Qmult_1_r (inject_Z (Z.of_nat n - 1))) at 2.
    apply Qmult_le_compat_nonneg; split; try assumption; apply Qle_refl.
Qed.

(** A percentile of a non-empty histogram is the value of the first bin
    at which the counts so far exceed [skip]. *)
Lemma getApproximatePercentile_walk (this : Numeric) (q : Q) :
  (0 <= q <= 1)%Q ->
  numValues this <> 0%nat ->
  let skip := Qfloor (inject_Z (Z.of_nat (numValues this) - 1) * q) in
  exists (k : nat) (bin : NumericBin),
    allBins this !! k = Some bin
    /\ (forall j, (j <= k)%nat -> counts_upto this j <= skip)
    /\ skip < counts_upto this (S k)
    /\ getApproximatePercentile (Fin q) this = Ok (bin_value this k bin).
Proof.
  intros Hq Hn skip.
  pose proof (skip_bounds (numValues this) q ltac:(lia) Hq) as Hs. fold skip in Hs.
  destruct (percentile_loop_walk this skip (length (allBins this)) 0)
    as (k & bin & _ & Hbin & Hall & Hlt & Hrun).
  - reflexivity.
  - rewrite counts_upto_0. lia.
  - lia.
  - exists k, bin. split; [exact Hbin|]. split; [intros j Hj; apply Hall; lia|].
    split; [exact Hlt|].
    unfold getApproximatePercentile.
    assert (Hin : num_ge (Fin q) (Fin 0) && num_le (Fin q) (Fin 1) = true).
    { unfold num_ge. simpl. apply andb_true_intro.
      rewrite !Qle_bool_iff. exact Hq. }
    rewrite Hin. cbn [negb].
    rewrite (proj2 (Nat.eqb_neq _ _) Hn).
    rewrite skip_value. fold skip.
    rewrite counts_upto_0, Z.sub_0_r in Hrun. exact Hrun.
Qed.


(** *** The layout and the order of the reported values *)

Lemma layout_ok_adjacent (this : Numeric) (i : nat) (a b : NumericBin) :
  layout_ok this = true ->
  allBins this !! i = Some a ->
  allBins this !! S i = Some b ->
  exists x y : Q,
    rmax (range a) = Fin x /\ rmin (range b) = Fin y /\ (x == y)%Q.
Proof.
  unfold layout_ok. intros H Ha Hb.
  apply andb_prop in H as [H _].
  rewrite forallb_forall in H. specialize (H i).
  rewrite Ha, Hb in H.
  assert (Hin : In i (seq 0 (length (allBins this) - 1))).
  { apply in_seq. apply lookup_lt_Some in Hb. lia. }
  apply H in Hin. apply andb_prop in Hin as [Hin He].
  apply andb_prop in Hin as [Hfa Hfb].
  destruct (rmax (range a)) as [| |x|]; try discriminate.
  destruct (rmin (range b)) as [| |y|]; try discriminate.
  exists x, y. repeat split. apply num_eq_Fin. exact He.
Qed.









(** *** Histograms that satisfy the layout invariant *)

Lemma for_of_invariant {S A} (P : S -> Prop) (body : A -> method S ()) (xs : list A) :
  (forall x s s' r, P s -> body x s = (s', r) -> P s') ->
  forall s s' r, P s -> for_of xs body s = (s', r) -> P s'.
Proof.
  intros Hbody. induction xs as [|x xs IH]; intros s s' r Hs Hrun; simpl in Hrun.
  - injection Hrun as <- _. exact Hs.
  - unfold bind in Hrun. destruct (body x s) as [s1 [[]|m]] eqn:E.
    + eapply IH; [|exact Hrun]. eapply Hbody; eauto.
    + injection Hrun as <- _. eapply Hbody; eauto.
Qed.

Lemma sorted_boundaries_new (q : Q) : sorted_boundaries [Fin q].
Proof.
  split; [discriminate|]. split.
  - intros [|i] x H; simpl in H; [injection H as <-; reflexivity | discriminate].
  - intros [|i] x y _ H; simpl in H; discriminate.
Qed.

Lemma sorted_boundaries_max (l : list num) :
  sorted_boundaries l ->
  exists m : Q, l !! (length l - 1)%nat = Some (Fin m).
Proof.
  intros (Hne & Hfin & _).
  destruct (lookup_lt_is_Some_2 l (length l - 1)) as [x Hx].
  { destruct l; [congruence | simpl; lia]. }
  pose proof (Hfin _ _ Hx) as Hf. destruct x; try discriminate. eauto.
Qed.

Lemma sorted_boundaries_push (l : list num) (m q : Q) :
  sorted_boundaries l ->
  l !! (length l - 1)%nat = Some (Fin m) ->
  (m < q)%Q ->
  sorted_boundaries (l ++ [Fin q]).
Proof.
  intros (Hne & Hfin & Hlt) Hm Hmq.
  split; [destruct l; discriminate|]. split.
  - intros i x Hx. apply lookup_app_Some in Hx as [Hx|[_ Hx]]; [eauto|].
    destruct (i - length l)%nat; simpl in Hx; [|discriminate].
    injection Hx as <-. reflexivity.
  - intros i x y Hx Hy.
    apply lookup_app_Some in Hy as [Hy|[Hge Hy]].
    + rewrite lookup_app_l in Hx by (apply lookup_lt_Some in Hy; lia). eauto.
    + destruct (S i - length l)%nat eqn:E; simpl in Hy; [|discriminate].
      injection Hy as <-.
      rewrite lookup_app_l in Hx by lia.
      replace i with (length l - 1)%nat in Hx by lia.
      rewrite Hm in Hx. injection Hx as <-.
      apply num_lt_Fin. exact Hmq.
Qed.

(** A finite boundary offered to [addBinBoundary] keeps the boundaries
    sorted, taken or refused. *)
Lemma addBinBoundary_sorted (x : num) (b b' : NumericBuilder) (r : outcome ()) :
  isFinite x = true ->
  sorted_boundaries (boundaries_ b) ->
  addBinBoundary x b = (b', r) ->
  sorted_boundaries (boundaries_ b').
Proof.
  intros Hx Hs. unfold addBinBoundary, maxBinBoundary, at_index.
  destruct (sorted_boundaries_max _ Hs) as (m & Hm). rewrite Hm. simpl.
  destruct x as [| |q|]; try discriminate.
  destruct (num_le (Fin q) (Fin m)) eqn:E; intros [= <- _]; [exact Hs|].
  simpl. apply (sorted_boundaries_push _ m q Hs Hm).
  apply num_le_Fin_false. exact E.
Qed.

(** [addLinearBins] towards a finite boundary keeps the boundaries sorted,
    whether it returns or throws. *)
Lemma addLinearBins_sorted (next : Q) (n : Z) (b b' : NumericBuilder)
    (r : outcome ()) :
  sorted_boundaries (boundaries_ b) ->
  addLinearBins (Fin next) n b = (b', r) ->
  sorted_boundaries (boundaries_ b').
Proof.
  intros Hs. unfold addLinearBins.
  destruct (Z.leb_spec n 0) as [?|Hn]; [intros [= <- _]; exact Hs|].
  destruct (sorted_boundaries_max _ Hs) as (m & Hm).
  assert (Hmb : maxBinBoundary b = Fin m).
  { unfold maxBinBoundary, at_index. rewrite Hm. reflexivity. }
  cbv zeta. rewrite !Hmb.
  destruct (num_ge (Fin m) (Fin next)); [intros [= <- _]; exact Hs|].
  assert (Hw : exists w, num_div (num_sub (Fin next) (Fin m)) (num_of_Z n) = Fin w).
  { unfold num_div, num_sub, num_neg, num_add, num_of_Z.
    destruct (Qeq_bool (inject_Z n) 0) eqn:E; [|eauto].
    apply Qeq_bool_iff in E. unfold Qeq, inject_Z in E. simpl in E. lia. }
  destruct Hw as (w & ->).
  unfold bind.
  match goal with
  | |- context [for_of ?xs ?body b] => destruct (for_of xs body b) as [b1 r1] eqn:Hloop
  end.
  assert (Hs1 : sorted_boundaries (boundaries_ b1)).
  { eapply (for_of_invariant (fun s => sorted_boundaries (boundaries_ s)));
      [|exact Hs|exact Hloop].
    intros i s s' r0 Hss Hadd. eapply addBinBoundary_sorted; [|exact Hss|exact Hadd].
    reflexivity. }
  destruct r1 as [[]|msg].
  - intros Hadd. eapply addBinBoundary_sorted; [|exact Hs1|exact Hadd]. reflexivity.
  - intros [= <- _]. exact Hs1.
Qed.

Lemma allBins_Numeric_new (u : Unit) (r : Range) (binInfo : BinInfo) :
  allBins (Numeric_new u r binInfo)
  = [bi_underflowBin binInfo] ++ bi_centralBins binInfo ++ [bi_overflowBin binInfo].
Proof.
  unfold Numeric_new.
  match goal with
  | |- context [fold_left ?f ?l ?h] =>
      destruct (fold_maxCount l h) as (_ & Hu & Hc & Ho);
      set (h' := fold_left f l h) in *
  end.
  unfold allBins at 1.
  cbn [underflowBin centralBins overflowBin set_maxNumSampleValues set_sampleValues_].
  rewrite Hu, Hc, Ho. reflexivity.
Qed.


Lemma at_index_lookup (l : list num) (i : nat) :
  (i < length l)%nat -> l !! i = Some (at_index l i).
Proof.
  intros Hi. unfold at_index.
  destruct (lookup_lt_is_Some_2 l i Hi) as [x ->]. reflexivity.
Qed.



(** The layout invariant reads the bounds of the bins and nothing else. *)
Lemma layout_ok_same_bounds (h h' : Numeric) :
  map bounds (allBins h') = map bounds (allBins h) ->
  layout_ok h' = layout_ok h.
Proof.
  intros Hr.
  assert (Hlen : length (allBins h') = length (allBins h)).
  { rewrite <- (length_map bounds (allBins h')), Hr, length_map. reflexivity. }
  assert (Hlk : forall i, bounds <$> (allBins h' !! i) = bounds <$> (allBins h !! i)).
  { intros i. rewrite <- !list_lookup_fmap.
    change (bounds <$> allBins h') with (map bounds (allBins h')).
    change (bounds <$> allBins h) with (map bounds (allBins h)).
    rewrite Hr. reflexivity. }
  assert (Hc : map bounds (centralBins h') = map bounds (centralBins h)).
  { unfold allBins in Hr. rewrite !map_app in Hr. simpl in Hr.
    injection Hr as _ _ Hr. apply app_inj_tail in Hr as [Hr _]. exact Hr. }
  unfold layout_ok. f_equal.
  - rewrite Hlen. generalize (seq 0 (length (allBins h) - 1)). intros l.
    induction l as [|i l IHl]; cbn [forallb]; [reflexivity|].
    f_equal; [|exact IHl].
    pose proof (Hlk i) as H0. pose proof (Hlk (S i)) as H1.
    destruct (allBins h' !! i), (allBins h !! i); simpl in H0; try discriminate;
      [|reflexivity].
    destruct (allBins h' !! S i), (allBins h !! S i); simpl in H1; try discriminate;
      [|reflexivity].
    unfold bounds in H0, H1.
    injection H0 as _ H0. injection H1 as H1 _. rewrite H0, H1. reflexivity.
  - transitivity (forallb (fun r => num_le (fst r) (snd r)) (map bounds (centralBins h'))).
    { clear. induction (centralBins h'); simpl; [reflexivity | f_equal; assumption]. }
    rewrite Hc.
    clear. induction (centralBins h); simpl; [reflexivity | f_equal; assumption].
Qed.

Lemma layout_ok_same_ranges (h h' : Numeric) :
  map range (allBins h') = map range (allBins h) ->
  layout_ok h' = layout_ok h.
Proof.
  intros Hr. apply layout_ok_same_bounds.
  assert (Hb : forall l : list NumericBin,
             map bounds l = map (fun r => (rmin r, rmax r)) (map range l)).
  { intros l. rewrite map_map. reflexivity. }
  rewrite !Hb, Hr. reflexivity.
Qed.

(** [add] leaves every range as it is. *)
Lemma Numeric_add_ranges (value : num) (opt_diagnostic : option Diagnostic)
    (h : Numeric) :
  map range (allBins (Numeric_add value opt_diagnostic h)) = map range (allBins h).
Proof.
  unfold Numeric_add.
  match goal with
  | |- context [set_sampleValues_ ?vs ?s] => generalize vs; set (s1 := s)
  end.
  intros vs. change (map range (allBins s1) = map range (allBins h)). subst s1.
  destruct (isNaN value).
  - destruct opt_diagnostic; reflexivity.
  - pose proof (getBinForValue_lt value h) as Hlt.
    destruct (allBins h !! getBinForValue value h) as [bin|] eqn:Hbin; [|reflexivity].
    set (bin' := NumericBin_add value opt_diagnostic bin).
    assert (Hr : range bin' = range bin).
    { unfold bin', NumericBin_add. destruct opt_diagnostic; reflexivity. }
    transitivity (map range (allBins (set_bin (getBinForValue value h) bin' h))).
    { match goal with
      | |- context [if ?c then _ else _] => destruct c; reflexivity
      end. }
    rewrite allBins_set_bin by exact Hlt.
    change (range <$> <[getBinForValue value h := bin']> (allBins h)
            = range <$> allBins h).
    rewrite list_fmap_insert, Hr.
    apply list_insert_id. rewrite list_lookup_fmap, Hbin. reflexivity.
Qed.


(** What comes back from the dictionary of a bin has the bounds and the
    count of the bin. *)
Lemma NumericBin_fromDict_asDict (b b' : NumericBin) :
  NumericBin_fromDict (NumericBin_asDict b) = Ok b' ->
  bounds b' = bounds b /\ count b' = count b.
Proof.
  unfold NumericBin_fromDict, NumericBin_asDict. simpl.
  destruct (map_outcome Diagnostic_fromDict (map Diagnostic_asDict (diagnostics b)));
    simpl; [|discriminate].
  intros [= <-]. split; reflexivity.
Qed.

Lemma map_fromDict_asDict (l : list NumericBin) :
  forall l' : list NumericBin,
    map_outcome NumericBin_fromDict (map NumericBin_asDict l) = Ok l' ->
    map bounds l' = map bounds l /\ map count l' = map count l.
Proof.
  induction l as [|b l IH]; intros l'; simpl.
  - intros [= <-]. split; reflexivity.
  - destruct (NumericBin_fromDict (NumericBin_asDict b)) as [b'|] eqn:Eb;
      simpl; [|discriminate].
    destruct (map_outcome NumericBin_fromDict (map NumericBin_asDict l)) as [l0|] eqn:El;
      simpl; [|discriminate].
    intros [= <-].
    destruct (NumericBin_fromDict_asDict b b' Eb) as [Hb Hc].
    destruct (IH l0 eq_refl) as [Hbs Hcs].
    simpl. rewrite Hb, Hc, Hbs, Hcs. split; reflexivity.
Qed.

(** A clone has the bins of the original, bound for bound and count for
    count, and its cache is the largest of these counts. *)
Lemma clone_bins (h h' : Numeric) :
  clone h = Ok h' ->
  map bounds (allBins h') = map bounds (allBins h)
  /\ map count (allBins h') = map count (allBins h)
  /\ maxCount_ h' = max_bin_count h'.
Proof.
  unfold clone, Numeric_fromDict, Numeric_asDict.
  cbn [nd_unit nd_min nd_max nd_numNans nd_nanDiagnostics nd_running
       nd_sampleValues nd_maxNumSampleValues nd_underflowBin nd_centralBins
       nd_overflowBin].
  destruct (NumericBin_fromDict (NumericBin_asDict (underflowBin h))) as [ub|] eqn:Eu;
    cbn [obind]; [|discriminate].
  destruct (map_outcome NumericBin_fromDict (map NumericBin_asDict (centralBins h)))
    as [cbs|] eqn:Ec; cbn [obind]; [|discriminate].
  destruct (NumericBin_fromDict (NumericBin_asDict (overflowBin h))) as [ob|] eqn:Eo;
    cbn [obind]; [|discriminate].
  destruct (Unit_fromJSON (Unit_asJSON (unit h))) as [u|]; cbn [obind]; [|discriminate].
  destruct (map_outcome Diagnostic_fromDict (map Diagnostic_asDict (nanDiagnostics h)))
    as [ds|]; cbn [obind]; [|discriminate].
  intros [= <-].
  remember (Numeric_new u (Range_fromExplicitRange (rmin (nrange h)) (rmax (nrange h)))
              (mkBinInfo ub cbs ob)) as n eqn:Hn.
  match goal with
  | |- map bounds (allBins ?x) = _ /\ _ =>
      change (map bounds (allBins n) = map bounds (allBins h)
              /\ map count (allBins n) = map count (allBins h)
              /\ maxCount_ n = max_bin_count n)
  end.
  assert (Hbins : allBins n = [ub] ++ cbs ++ [ob]).
  { rewrite Hn. apply allBins_Numeric_new. }
  rewrite Hbins.
  destruct (NumericBin_fromDict_asDict _ _ Eu) as [Hub Huc].
  destruct (NumericBin_fromDict_asDict _ _ Eo) as [Hob Hoc].
  destruct (map_fromDict_asDict _ _ Ec) as [Hcb Hcc].
  unfold allBins. rewrite !map_app. simpl.
  rewrite Hub, Huc, Hob, Hoc, Hcb, Hcc.
  split; [reflexivity|]. split; [reflexivity|].
  rewrite Hn. apply Numeric_new_maxCount.
Qed.

Lemma clone_layout_ok (h h' : Numeric) :
  clone h = Ok h' -> layout_ok h' = layout_ok h.
Proof.
  intros Hc. apply layout_ok_same_bounds. apply (clone_bins h h' Hc).
Qed.



(** *** Adding a histogram in place *)

Lemma canAddNumeric_true (this other : Numeric) :
  canAddNumeric this other = true ->
  Range_equals (nrange this) (nrange other) = true
  /\ unit this = unit other
  /\ length (allBins this) = length (allBins other)
  /\ (forall i a b,
        allBins this !! i = Some a -> allBins other !! i = Some b ->
        Range_equals (range a) (range b) = true).
Proof.
  unfold canAddNumeric. intros Hall.
  destruct (Range_equals (nrange this) (nrange other));
    cbn [negb] in Hall; [|discriminate].
  destruct (bool_decide (unit this = unit other)) eqn:Eu;
    cbn [negb] in Hall; [|discriminate].
  apply bool_decide_eq_true_1 in Eu.
  destruct (length (allBins this) =? length (allBins other))%nat eqn:El;
    cbn [negb] in Hall; [|discriminate].
  apply Nat.eqb_eq in El.
  repeat split; auto.
  intros i a b Ha Hb.
  rewrite forallb_forall in Hall.
  specialize (Hall i). rewrite Ha, Hb in Hall. apply Hall.
  apply in_seq. apply lookup_lt_Some in Ha. lia.
Qed.

Lemma canAddNumeric_intro (this other : Numeric) :
  Range_equals (nrange this) (nrange other) = true ->
  unit this = unit other ->
  length (allBins this) = length (allBins other) ->
  (forall i a b,
      allBins this !! i = Some a -> allBins other !! i = Some b ->
      Range_equals (range a) (range b) = true) ->
  canAddNumeric this other = true.
Proof.
  intros Hr Hu Hlen Hall. unfold canAddNumeric.
  rewrite Hr, (bool_decide_eq_true_2 _ Hu), Hlen, Nat.eqb_refl. cbn [negb].
  apply forallb_forall. intros i Hi. apply in_seq in Hi.
  destruct (lookup_lt_is_Some_2 (allBins this) i) as [a Ha]; [lia|].
  destruct (lookup_lt_is_Some_2 (allBins other) i) as [b Hb]; [lia|].
  rewrite Ha, Hb. eauto.
Qed.

Lemma addBin_loop (other : Numeric) (n : nat) :
  forall (k : nat) (s : Numeric),
    (k + n)%nat = length (allBins s) ->
    length (allBins other) = length (allBins s) ->
    (forall i a b,
        allBins s !! i = Some a -> allBins other !! i = Some b ->
        Range_equals (range a) (range b) = true) ->
    exists s',
      for_of (seq k n) (addBin_at other) s = (s', Ok ())
      /\ other_fields s' = other_fields s
      /\ allBins s'
         = take k (allBins s)
           ++ zip_with combined_bin (drop k (allBins s)) (drop k (allBins other)).
Proof.
  induction n as [|n IH]; intros k s Hlen Hlo Hr.
  - exists s. simpl. repeat split.
    rewrite drop_ge by lia. simpl. rewrite app_nil_r, take_ge by lia. reflexivity.
  - destruct (lookup_lt_is_Some_2 (allBins s) k) as [bin Hbin]; [lia|].
    destruct (lookup_lt_is_Some_2 (allBins other) k) as [obin Hobin]; [lia|].
    pose proof (Hr k bin obin Hbin Hobin) as Heq.
    set (s1 := set_bin k (combined_bin bin obin) s).
    assert (Hs1 : allBins s1 = <[k := combined_bin bin obin]> (allBins s)).
    { apply allBins_set_bin. lia. }
    destruct (IH (S k) s1) as (s' & Hrun & Hf & Hbins).
    + rewrite Hs1, length_insert. lia.
    + rewrite Hs1, length_insert. exact Hlo.
    + intros i a b Ha Hb. rewrite Hs1 in Ha.
      destruct (decide (k = i)) as [<-|Hne].
      * rewrite list_lookup_insert_eq in Ha by lia.
        injection Ha as <-. rewrite Hobin in Hb. injection Hb as <-.
        exact Heq.
      * rewrite list_lookup_insert_ne in Ha by exact Hne. eauto.
    + exists s'. split; [|split].
      * cbn [seq for_of]. unfold bind at 1. unfold addBin_at at 1.
        rewrite Hbin, Hobin. unfold NumericBin_addBin. rewrite Heq. simpl.
        exact Hrun.
      * rewrite Hf. reflexivity.
      * rewrite Hbins, Hs1.
        rewrite (take_S_r _ k (combined_bin bin obin))
          by (apply list_lookup_insert_eq; lia).
        rewrite take_insert_ge by lia.
        rewrite drop_insert_lt by lia.
        rewrite (drop_S (allBins s) bin k Hbin).
        rewrite (drop_S (allBins other) obin k Hobin).
        simpl. rewrite <- app_assoc. reflexivity.
Qed.

(** What [addNumeric] does once [canAddNumeric] has let it through. *)
Lemma addNumeric_applies (this other : Numeric) :
  canAddNumeric this other = true ->
  exists this',
    addNumeric other this = (this', Ok ())
    /\ allBins this' = zip_with combined_bin (allBins this) (allBins other)
    /\ other_fields this'
       = (unit this, nrange this, (numNans this + numNans other)%nat,
          mergeSampledStreams (nanDiagnostics this) (numNans this)
            (nanDiagnostics other) (numNans other) (num_of_nat MAX_DIAGNOSTICS),
          Running_merge (running this) (running other),
          maxCount_ this,
          mergeSampledStreams (sampleValues this) (numValues this)
            (sampleValues other) (numValues other)
            (Statistics_mean2 (maxNumSampleValues this) (maxNumSampleValues other)),
          maxNumSampleValues this).
Proof.
  intros Hc. unfold addNumeric. rewrite Hc. cbn [negb].
  destruct (canAddNumeric_true _ _ Hc) as (_ & _ & Hlen & Hr).
  unfold bind, modify, get.
  match goal with
  | |- context [for_of (seq 0 (length (allBins ?s))) _ ?s] => set (s1 := s)
  end.
  assert (Hb1 : allBins s1 = allBins this) by reflexivity.
  destruct (addBin_loop other (length (allBins s1)) 0 s1) as (s' & Hrun & Hf & Hbins).
  - reflexivity.
  - rewrite Hb1. symmetry. exact Hlen.
  - rewrite Hb1. exact Hr.
  - exists s'. rewrite Hb1, take_0, !drop_0, app_nil_l in Hbins.
    split; [exact Hrun|]. split; [exact Hbins|]. rewrite Hf. reflexivity.
Qed.

Lemma map_count_combined (l l' : list NumericBin) :
  map count (zip_with combined_bin l l')
  = zip_with Nat.add (map count l) (map count l').
Proof.
  revert l'. induction l as [|a l IH]; intros [|b l']; simpl; f_equal; auto.
Qed.

Lemma map_range_combined (l l' : list NumericBin) :
  length l = length l' ->
  map range (zip_with combined_bin l l') = map range l.
Proof.
  revert l'. induction l as [|a l IH]; intros [|b l'] Hlen; simpl in *;
    try discriminate; f_equal; auto.
Qed.

(** [addNumeric] leaves every range as it is, applied or refused. *)
Lemma addNumeric_layout_ok (this other : Numeric) :
  layout_ok (fst (addNumeric other this)) = layout_ok this.
Proof.
  destruct (canAddNumeric this other) eqn:Hc.
  - destruct (addNumeric_applies this other Hc) as (this' & -> & Hbins & _).
    apply layout_ok_same_ranges. cbn [fst]. rewrite Hbins.
    apply map_range_combined.
    apply (canAddNumeric_true _ _ Hc).
  - unfold addNumeric. rewrite Hc. reflexivity.
Qed.

(** [addNumeric] never writes the cached maximum. *)
Lemma addNumeric_maxCount_unchanged (this other : Numeric) :
  maxCount_ (fst (addNumeric other this)) = maxCount_ this.
Proof.
  destruct (canAddNumeric this other) eqn:Hc.
  - destruct (addNumeric_applies this other Hc) as (this' & -> & _ & Hf).
    unfold other_fields in Hf. injection Hf as _ _ _ _ _ Hm _ _. exact Hm.
  - unfold addNumeric. rewrite Hc. reflexivity.
Qed.

(** C5: [canAddNumeric(other)] holds exactly when the units, the overall
    ranges and the numbers of bins agree and every bin has the range of
    its counterpart; [addNumeric(other)] throws exactly when it is false,
    and then [this] is as it was; when it returns, every bin is the
    combination of the bin and its counterpart in [other] (same range,
    counts added, diagnostics merged), numNans is the sum of both, the
    running statistics and the two reservoirs are the merged ones, and the
    unit, the range and the capacity are as they were. *)
Theorem addNumeric_all_or_nothing (this other : Numeric) :
  (canAddNumeric this other = true <->
   unit this = unit other
   /\ Range_equals (nrange this) (nrange other) = true
   /\ length (allBins this) = length (allBins other)
   /\ (forall i a b,
         allBins this !! i = Some a -> allBins other !! i = Some b ->
         Range_equals (range a) (range b) = true))
  /\ (canAddNumeric this other = false ->
      addNumeric other this = (this, Throw "Merging incompatible Numerics."))
  /\ (canAddNumeric this other = true ->
      exists this' : Numeric,
        addNumeric other this = (this', Ok ())
        /\ allBins this' = zip_with combined_bin (allBins this) (allBins other)
        /\ map count (allBins this')
           = zip_with Nat.add (map count (allBins this)) (map count (allBins other))
        /\ numNans this' = (numNans this + numNans other)%nat
        /\ running this' = Running_merge (running this) (running other)
        /\ nanDiagnostics this'
           = mergeSampledStreams (nanDiagnostics this) (numNans this)
               (nanDiagnostics other) (numNans other) (num_of_nat MAX_DIAGNOSTICS)
        /\ sampleValues this'
           = mergeSampledStreams (sampleValues this) (numValues this)
               (sampleValues other) (numValues other)
               (Statistics_mean2 (maxNumSampleValues this) (maxNumSampleValues other))
        /\ unit this' = unit this
        /\ nrange this' = nrange this
        /\ maxNumSampleValues this' = maxNumSampleValues this).
Proof.
  split; [|split].
  - split.
    + intros Hc. destruct (canAddNumeric_true _ _ Hc) as (? & ? & ? & ?). auto.
    + intros (? & ? & ? & ?). apply canAddNumeric_intro; assumption.
  - intros Hc. unfold addNumeric. rewrite Hc. reflexivity.
  - intros Hc.
    destruct (addNumeric_applies this other Hc) as (this' & Hrun & Hbins & Hf).
    unfold other_fields in Hf. injection Hf as Hu Hnr Hnn Hnd Hru _ Hsv Hmx.
    exists this'. split; [exact Hrun|]. split; [exact Hbins|].
    split; [rewrite Hbins; apply map_count_combined|].
    unfold sampleValues. auto 10.
Qed.

(** *** Scalars *)

(** C8: a scalar serializes +Infinity, -Infinity and NaN as the strings
    "Infinity", "-Infinity" and "NaN" and a finite value as the number
    itself, and, the unit surviving its own round trip, deserializing what
    was serialized gives back the scalar: same value (NaN for NaN), same
    unit. *)
Theorem scalar_roundtrip (s : ScalarNumeric)
    (Hunit : Unit_fromJSON (Unit_asJSON (s_unit s)) = Ok (s_unit s)) :
  sd_value (ScalarNumeric_asDict s)
  = Some (match value s with
          | PosInf => JStr "Infinity"
          | NegInf => JStr "-Infinity"
          | NaN => JStr "NaN"
          | Fin q => JNum (Fin q)
          end)
  /\ sd_type (ScalarNumeric_asDict s) = Some "scalar"%string
  /\ ScalarNumeric_fromDict (ScalarNumeric_asDict s) = Ok s.
Proof.
  destruct s as [u v]; simpl in Hunit.
  unfold ScalarNumeric_asDict, ScalarNumeric_asDictInto_, ScalarNumeric_fromDict.
  destruct v; simpl; rewrite ?Hunit; simpl; auto.
Qed.

(** *** Significance of a difference *)

(** C3, as the code has it: different units throw; with equal units a
    "don't care" unit answers DONT_CARE whatever [other] is; with equal
    units and a direction that matters a scalar throws, and a histogram is
    SIGNIFICANT exactly when the test's p-value is below the threshold, and
    INSIGNIFICANT otherwise, the threshold being alpha when it is given and
    is neither 0 nor NaN, and 0.05 otherwise. *)
Theorem significance_cases (this : Numeric) (other : NumericBase)
    (opt_alpha : option num) :
  (unit this <> base_unit other ->
   getDifferenceSignificance other opt_alpha this
   = Throw "Cannot compare Numerics with different units")
  /\ (unit this = base_unit other ->
      improvementDirection (unit this) = DIR_DONT_CARE ->
      getDifferenceSignificance other opt_alpha this = Ok DONT_CARE)
  /\ (unit this = base_unit other ->
      improvementDirection (unit this) <> DIR_DONT_CARE ->
      match other with
      | IsScalar _ =>
          getDifferenceSignificance other opt_alpha this
          = Throw "Unable to compute a p-value"
      | IsNumeric o =>
          let p := mwu_test_p (sampleValues this) (sampleValues o) in
          let threshold :=
            match opt_alpha with
            | Some (Fin a) => if Qeq_bool a 0 then Fin (5 # 100) else Fin a
            | Some NaN | None => Fin (5 # 100)
            | Some inf => inf
            end in
          getDifferenceSignificance other opt_alpha this
          = Ok (if num_lt p threshold then SIGNIFICANT else INSIGNIFICANT)
      end).
Proof.
  unfold getDifferenceSignificance.
  repeat split.
  - intros Hne. rewrite bool_decide_eq_false_2 by exact Hne. reflexivity.
  - intros Heq Hdir. rewrite bool_decide_eq_true_2 by exact Heq. simpl.
    rewrite Hdir. reflexivity.
  - intros Heq Hdir. rewrite bool_decide_eq_true_2 by exact Heq. simpl.
    destruct (improvementDirection (unit this)) eqn:E; [congruence| |];
      (destruct other as [o|sc]; [|reflexivity]);
      (destruct opt_alpha as [[| |a|]|]; simpl;
       unfold alpha_or_default, truthy, DEFAULT_ALPHA;
       try match goal with
           | |- context [Qeq_bool ?q 0] => destruct (Qeq_bool q 0); simpl
           end;
       match goal with
       | |- context [if ?b then Ok _ else Ok _] => destruct b; reflexivity
       end).
Qed.


(** *** No sample, no histogram *)

(** C9: no sample, no histogram: for an empty list the number of bins
    [ceil(sqrt(0))] is 0, [addLinearBins] refuses a count that is not
    positive, and [buildFromSamples] throws its "Bin count must be
    positive"; so does a merge that falls back on the samples of two
    histograms that retain none. *)
Theorem buildFromSamples_empty_throws :
  ceil_sqrt (length (@nil num)) = 0
  /\ (forall (next : num) (b : NumericBuilder),
        addLinearBins next 0 b = (b, Throw "Bin count must be positive"))
  /\ (forall u : Unit, buildFromSamples u [] = Throw "Bin count must be positive")
  /\ (forall a b : Numeric,
        unit a = unit b ->
        canAddNumeric a b = false ->
        sampleValues a = [] ->
        sampleValues b = [] ->
        merge (IsNumeric a) (IsNumeric b) = Throw "Bin count must be positive").
Proof.
  split; [reflexivity|]. split; [reflexivity|]. split.
  - intros u. reflexivity.
  - intros a b Hu Hc Ha Hb. unfold merge. simpl.
    rewrite bool_decide_eq_true_2 by exact Hu. simpl. rewrite Hc.
    unfold merge_fromSamples. simpl. unfold Numeric_sampleValuesInto.
    rewrite Ha, Hb. reflexivity.
Qed.

(** *** The scenario of a linear layout *)

(** C6, with the bounds the code gives the outer bins: a builder started
    at 0 takes [addLinearBins(10, 2)] without throwing, and [build()] then
    yields the four bins [-MAX_VALUE, 0], [0, 5], [5, 10], [10, MAX_VALUE]
    in that order with count 0, MAX_VALUE being the largest finite number;
    [add(7)] on that histogram raises the count of [5, 10] to 1 and leaves
    the other counts at 0 and every range as it was. *)
Theorem linear_layout_scenario (u : Unit) (opt_diagnostic : option Diagnostic) :
  let run := addLinearBins (num_of_Z 10) 2 (NumericBuilder_new u (num_of_Z 0)) in
  let h := build (fst run) in
  let h' := Numeric_add (num_of_Z 7) opt_diagnostic h in
  snd run = Ok ()
  /\ map range (allBins h)
     = [ Range_fromExplicitRange (num_neg MAX_VALUE) (num_of_Z 0);
         Range_fromExplicitRange (num_of_Z 0) (num_of_Z 5);
         Range_fromExplicitRange (num_of_Z 5) (num_of_Z 10);
         Range_fromExplicitRange (num_of_Z 10) MAX_VALUE ]
  /\ map count (allBins h) = [0; 0; 0; 0]%nat
  /\ map count (allBins h') = [0; 0; 1; 0]%nat
  /\ map range (allBins h') = map range (allBins h).
Proof.
  destruct opt_diagnostic; vm_compute; repeat split; reflexivity.
Qed.

(** *** What one [add] changes *)

Lemma sum_list_with_insert {A} (f : A -> nat) (l : list A) (i : nat) (a b : A) :
  l !! i = Some a ->
  (sum_list_with f (<[i := b]> l) + f a = sum_list_with f l + f b)%nat.
Proof.
  revert i. induction l as [|x l IH]; intros [|i] Hi; simpl in *; try discriminate.
  - injection Hi as ->. lia.
  - specialize (IH i Hi). lia.
Qed.

Lemma map_insert_alter {A B} (f : A -> B) (g : B -> B) (l : list A) (i : nat) (a b : A) :
  l !! i = Some a ->
  f b = g (f a) ->
  map f (<[i := b]> l) = alter g i (map f l).
Proof.
  revert i. induction l as [|x l IH]; intros [|i] Hi Hb; simpl in *; try discriminate.
  - injection Hi as ->. rewrite Hb. reflexivity.
  - f_equal. apply IH; assumption.
Qed.

(** [add] of NaN. *)
Lemma Numeric_add_NaN (value : num) (opt_diagnostic : option Diagnostic) (h : Numeric) :
  isNaN value = true ->
  allBins (Numeric_add value opt_diagnostic h) = allBins h
  /\ numNans (Numeric_add value opt_diagnostic h) = (numNans h + 1)%nat.
Proof.
  intros Hv. unfold Numeric_add. rewrite Hv.
  destruct opt_diagnostic; split; reflexivity.
Qed.

(** [add] of a number. *)
Lemma Numeric_add_number (value : num) (opt_diagnostic : option Diagnostic) (h : Numeric) :
  isNaN value = false ->
  exists bin : NumericBin,
    allBins h !! getBinForValue value h = Some bin
    /\ allBins (Numeric_add value opt_diagnostic h)
       = <[getBinForValue value h := NumericBin_add value opt_diagnostic bin]> (allBins h)
    /\ numNans (Numeric_add value opt_diagnostic h) = numNans h
    /\ running (Numeric_add value opt_diagnostic h) = Running_add value (running h).
Proof.
  intros Hv. unfold Numeric_add. rewrite Hv.
  pose proof (getBinForValue_lt value h) as Hlt.
  destruct (lookup_lt_is_Some_2 _ _ Hlt) as [bin Hbin]. rewrite Hbin.
  exists bin. split; [reflexivity|].
  set (bin' := NumericBin_add value opt_diagnostic bin).
  rewrite <- (allBins_set_bin _ bin' h Hlt).
  match goal with
  | |- context [if ?c then _ else _] => destruct c
  end; repeat split.
Qed.

Lemma NumericBin_add_fields (value : num) (opt_diagnostic : option Diagnostic)
    (bin : NumericBin) :
  range (NumericBin_add value opt_diagnostic bin) = range bin
  /\ count (NumericBin_add value opt_diagnostic bin) = S (count bin).
Proof.
  unfold NumericBin_add. destruct opt_diagnostic; simpl; split; auto; lia.
Qed.

Lemma Numeric_add_unit_range (value : num) (opt_diagnostic : option Diagnostic)
    (h : Numeric) :
  unit (Numeric_add value opt_diagnostic h) = unit h
  /\ nrange (Numeric_add value opt_diagnostic h) = nrange h.
Proof.
  unfold Numeric_add. cbn [unit nrange set_sampleValues_].
  destruct (isNaN value).
  - destruct opt_diagnostic; split; reflexivity.
  - destruct (allBins h !! getBinForValue value h); [|split; reflexivity].
    match goal with
    | |- context [if ?c then _ else _] => destruct c; split; reflexivity
    end.
Qed.

(** X1: every [add] is counted once.  numValues + numNans grows by one
    and no range changes; NaN raises numNans and leaves every count as it
    was; any other value leaves numNans as it was and raises by one the
    count of the bin that [getBinForValue] designates, and of no other. *)
Theorem add_counts_once (value : num) (opt_diagnostic : option Diagnostic)
    (h : Numeric) :
  let h' := Numeric_add value opt_diagnostic h in
  (numValues h' + numNans h' = numValues h + numNans h + 1)%nat
  /\ map range (allBins h') = map range (allBins h)
  /\ (if isNaN value
      then numNans h' = (numNans h + 1)%nat
           /\ map count (allBins h') = map count (allBins h)
      else numNans h' = numNans h
           /\ (getBinForValue value h < length (allBins h))%nat
           /\ map count (allBins h')
              = alter S (getBinForValue value h) (map count (allBins h))).
Proof.
  intros h'. split; [|split].
  - unfold h'. destruct (isNaN value) eqn:Hv.
    + destruct (Numeric_add_NaN value opt_diagnostic h Hv) as [Hb Hn].
      rewrite !numValues_sum, Hb, Hn. lia.
    + destruct (Numeric_add_number value opt_diagnostic h Hv)
        as (bin & Hbin & Hb & Hn & _).
      rewrite !numValues_sum, Hb, Hn.
      pose proof (sum_list_with_insert count _ _ bin
                    (NumericBin_add value opt_diagnostic bin) Hbin) as Hs.
      rewrite (proj2 (NumericBin_add_fields value opt_diagnostic bin)) in Hs. lia.
  - apply Numeric_add_ranges.
  - unfold h'. destruct (isNaN value) eqn:Hv.
    + destruct (Numeric_add_NaN value opt_diagnostic h Hv) as [Hb Hn].
      rewrite Hb. split; [exact Hn | reflexivity].
    + destruct (Numeric_add_number value opt_diagnostic h Hv)
        as (bin & Hbin & Hb & Hn & _).
      split; [exact Hn|]. split; [apply getBinForValue_lt|].
      rewrite Hb. apply (map_insert_alter count S _ _ bin); [exact Hbin|].
      apply NumericBin_add_fields.
Qed.

(** *** Series of [add] *)

Lemma add_all_app (values : list num) (v : num) (h : Numeric) :
  add_all (values ++ [v]) h = Numeric_add v None (add_all values h).
Proof. unfold add_all. rewrite fold_left_app. reflexivity. Qed.

Lemma add_all_invariant (P : Numeric -> Prop) :
  (forall v h, P h -> P (Numeric_add v None h)) ->
  forall values h, P h -> P (add_all values h).
Proof.
  intros Hstep values. unfold add_all.
  induction values as [|v values IH]; intros h Hh; simpl; [exact Hh|].
  apply IH, Hstep, Hh.
Qed.

Lemma count_NaN_cons (v : num) (values : list num) :
  count_NaN (v :: values)
  = ((if isNaN v then 1 else 0) + count_NaN values)%nat.
Proof.
  unfold count_NaN. rewrite filter_cons.
  destruct (decide (isNaN v = true)) as [E|E].
  - rewrite E. reflexivity.
  - destruct (isNaN v); [congruence | reflexivity].
Qed.

Lemma add_all_counts (values : list num) :
  forall h : Numeric,
    numNans (add_all values h) = (numNans h + count_NaN values)%nat
    /\ (numValues (add_all values h) + numNans (add_all values h)
        = numValues h + numNans h + length values)%nat.
Proof.
  induction values as [|v values IH]; intros h.
  - unfold add_all, count_NaN. simpl. lia.
  - change (add_all (v :: values) h) with (add_all values (Numeric_add v None h)).
    destruct (IH (Numeric_add v None h)) as [Hn Ht].
    rewrite Ht, Hn, count_NaN_cons.
    assert (Hone : (numValues (Numeric_add v None h) + numNans (Numeric_add v None h)
                    = numValues h + numNans h + 1)%nat).
    { destruct (isNaN v) eqn:Hv.
      - destruct (Numeric_add_NaN v None h Hv) as [Hb Hnn].
        rewrite !numValues_sum, Hb, Hnn. lia.
      - destruct (Numeric_add_number v None h Hv) as (bin & Hbin & Hb & Hnn & _).
        rewrite !numValues_sum, Hb, Hnn.
        pose proof (sum_list_with_insert count _ _ bin
                      (NumericBin_add v None bin) Hbin) as Hs.
        rewrite (proj2 (NumericBin_add_fields v None bin)) in Hs. lia. }
    assert (Hnan : numNans (Numeric_add v None h)
                   = (numNans h + (if isNaN v then 1 else 0))%nat).
    { destruct (isNaN v) eqn:Hv.
      - apply (Numeric_add_NaN v None h Hv).
      - destruct (Numeric_add_number v None h Hv) as (bin & _ & _ & Hnn & _). lia. }
    simpl length. lia.
Qed.

Lemma fold_maxCount_eq (l : list NumericBin) :
  forall h : Numeric,
    fold_left (fun this bin =>
                 if (maxCount_ this <? count bin)%nat
                 then set_maxCount_ (count bin) this else this) l h
    = set_maxCount_ (Nat.max (maxCount_ h) (max_list_with count l)) h.
Proof.
  induction l as [|b l IH]; intros h; simpl.
  - rewrite Nat.max_0_r. destruct h; reflexivity.
  - rewrite IH. destruct (Nat.ltb_spec (maxCount_ h) (count b)).
    + unfold set_maxCount_. simpl. f_equal. lia.
    + unfold set_maxCount_. f_equal. lia.
Qed.

(** The object that the constructor returns, field by field. *)
Lemma Numeric_new_eq (u : Unit) (r : Range) (binInfo : BinInfo) :
  Numeric_new u r binInfo
  = mkNumeric u r 0 [] Running_new
      (max_list_with count
         ([bi_underflowBin binInfo] ++ bi_centralBins binInfo ++ [bi_overflowBin binInfo]))
      (bi_underflowBin binInfo) (bi_centralBins binInfo) (bi_overflowBin binInfo)
      [] (length ([bi_underflowBin binInfo] ++ bi_centralBins binInfo
                  ++ [bi_overflowBin binInfo]) * 10).
Proof.
  unfold Numeric_new. rewrite fold_maxCount_eq. reflexivity.
Qed.

(** What [build] returns before any [add]. *)
Lemma build_empty (b : NumericBuilder) :
  Forall (fun bin => count bin = 0%nat) (allBins (build b))
  /\ numNans (build b) = 0%nat
  /\ sampleValues (build b) = []
  /\ unit (build b) = unit_ b.
Proof.
  split.
  - unfold build. rewrite allBins_Numeric_new.
    cbn [bi_underflowBin bi_centralBins bi_overflowBin].
    apply Forall_app. split; [repeat constructor|].
    apply Forall_app. split; [|repeat constructor].
    apply Forall_forall. intros bin Hbin.
    apply list_elem_of_In, in_map_iff in Hbin as (i & <- & _). reflexivity.
  - unfold build. rewrite Numeric_new_eq. split; [reflexivity|]. split; reflexivity.
Qed.

Lemma numValues_zero (h : Numeric) :
  Forall (fun bin => count bin = 0%nat) (allBins h) -> numValues h = 0%nat.
Proof.
  intros H. rewrite numValues_sum.
  induction H as [|x l Hx _ IH]; simpl; [reflexivity|]. rewrite Hx, IH. reflexivity.
Qed.

(** X2: the cached maximum is the largest count of the bins on every
    histogram that comes out of [build], out of [build] followed by any
    series of [add], out of [buildFromSamples] and out of [clone]. *)
Theorem maxCount_is_max_without_addNumeric :
  (forall (b : NumericBuilder) (values : list num),
      maxCount (add_all values (build b)) = max_bin_count (add_all values (build b)))
  /\ (forall (u : Unit) (samples : list num) (h : Numeric),
        buildFromSamples u samples = Ok h -> maxCount h = max_bin_count h)
  /\ (forall h h' : Numeric, clone h = Ok h' -> maxCount h' = max_bin_count h').
Proof.
  assert (Hadd : forall values h, maxCount_ h = max_bin_count h ->
                   maxCount_ (add_all values h) = max_bin_count (add_all values h)).
  { intros values h. apply (add_all_invariant (fun h => maxCount_ h = max_bin_count h)).
    intros v h0. apply Numeric_add_maxCount. }
  split; [|split].
  - intros b values. apply Hadd. apply Numeric_new_maxCount.
  - intros u samples h. unfold buildFromSamples.
    match goal with
    | |- context [addLinearBins ?a ?n ?b] => destruct (addLinearBins a n b) as [b' [[]|m]]
    end; [|discriminate].
    intros [= <-]. apply Hadd.
    change (maxCount_ (build b') = max_bin_count (build b')).
    apply Numeric_new_maxCount.
  - intros h h' Hc. apply (clone_bins h h' Hc).
Qed.

Lemma buildFromSamples_counts (u : Unit) (samples : list num) (h : Numeric) :
  buildFromSamples u samples = Ok h ->
  numNans h = count_NaN samples
  /\ (numValues h + count_NaN samples = length samples)%nat
  /\ unit h = u.
Proof.
  unfold buildFromSamples.
  match goal with
  | |- context [addLinearBins ?a ?n ?b] =>
      pose proof (addLinearBins_unit a n b) as Hu;
      destruct (addLinearBins a n b) as [b' [[]|m]]
  end; [|discriminate].
  intros [= <-].
  match goal with
  | |- context [fold_left _ samples ?h0] =>
      change (fold_left (fun result sample => Numeric_add sample None result) samples h0)
        with (add_all samples h0);
      set (h0' := h0)
  end.
  destruct (add_all_counts samples h0') as [Hn Ht].
  assert (H0 : numValues h0' = 0%nat /\ numNans h0' = 0%nat /\ unit h0' = u).
  { destruct (build_empty b') as (Hz & Hn' & _ & Hu').
    split; [|split].
    - apply numValues_zero. exact Hz.
    - exact Hn'.
    - change (unit (build b') = u). rewrite Hu'. exact Hu. }
  destruct H0 as (Hv0 & Hn0 & Hu0).
  rewrite Hn0 in Hn. rewrite Hv0, Hn0 in Ht.
  split; [lia|]. split; [lia|].
  rewrite <- Hu0.
  apply (add_all_invariant (fun h => unit h = unit h0')); [|reflexivity].
  intros v h1 H1. rewrite (proj1 (Numeric_add_unit_range v None h1)). exact H1.
Qed.

(** X3: [buildFromSamples] counts every sample once: the NaN samples in
    numNans, the others in the bins, so that numValues + numNans is the
    number of samples. *)
Theorem buildFromSamples_counts_every_sample (u : Unit) (samples : list num)
    (h : Numeric) :
  buildFromSamples u samples = Ok h ->
  numNans h = count_NaN samples
  /\ (numValues h + count_NaN samples = length samples)%nat
  /\ unit h = u.
Proof. apply buildFromSamples_counts. Qed.


Lemma buildFromSamples_returns (u : Unit) (samples : list num) :
  samples <> [] ->
  forallb finite_or_NaN samples = true ->
  exists h, buildFromSamples u samples = Ok h.
Proof.
  intros Hne Hall. unfold buildFromSamples.
  pose proof (samples_range samples Hall Range_new (or_introl eq_refl)) as Hr.
  apply widened_range in Hr. cbv zeta in Hr.
  destruct Hr as (a & b & Ha & Hb & Hab).
  rewrite Ha, Hb.
  destruct (addLinearBins_ok (NumericBuilder_new u (Fin a)) a b
              (ceil_sqrt (length samples))) as (b' & -> & _).
  - reflexivity.
  - exact Hab.
  - apply ceil_sqrt_pos. destruct samples; [congruence | simpl; lia].
  - eexists. reflexivity.
Qed.

(** *** The boundaries a builder accumulates *)






Lemma addLinearBins_to_infinity (b : NumericBuilder) (cur : Q) (n : Z)
    (Hmax : maxBinBoundary b = Fin cur)
    (Hn : 2 <= n) :
  addLinearBins PosInf n b
  = (mkBuilder (unit_ b) (boundaries_ b ++ [PosInf]),
     Throw "The added max bin boundary must be larger than the current max boundary").
Proof.
  unfold addLinearBins.
  destruct (Z.leb_spec n 0) as [?|_]; [lia|].
  rewrite Hmax. cbn [num_ge num_le].
  assert (Hbw : num_div (num_sub PosInf (Fin cur)) (num_of_Z n) = PosInf).
  { unfold num_div, num_sub, num_neg, num_add, num_of_Z. cbn.
    destruct (Qeq_bool (inject_Z n) 0) eqn:E.
    - apply Qeq_bool_iff in E. unfold Qeq, inject_Z in E. simpl in E. lia.
    - unfold Qsgn, inject_Z. simpl. destruct n; try lia. reflexivity. }
  rewrite Hbw.
  assert (Hstep : forall i : Z, 0 < i ->
            num_add (Fin cur) (num_mul (num_of_Z i) PosInf) = PosInf).
  { intros i Hi. unfold num_mul, num_of_Z, num_sgn, Qsgn, inject_Z. simpl.
    destruct i; try lia. reflexivity. }
  unfold loop_indices, bind.
  replace (Z.to_nat (n - 1)) with (S (Z.to_nat (n - 2))) by lia.
  cbn [seq map for_of]. unfold bind at 1.
  rewrite (Hstep (Z.of_nat 1)) by lia.
  unfold addBinBoundary at 1. rewrite Hmax. cbn [num_le].
  destruct (Z.to_nat (n - 2)) as [|k].
  - cbn [seq map for_of ret].
    unfold addBinBoundary. rewrite maxBinBoundary_push. reflexivity.
  - cbn [seq map for_of]. unfold bind at 1.
    rewrite (Hstep (Z.of_nat 2)) by lia.
    unfold addBinBoundary at 1. rewrite maxBinBoundary_push. reflexivity.
Qed.

(** X5: a failure of [addLinearBins] can leave the builder changed.
    With a finite last boundary, the target +Infinity and a count of 2 or
    more, the first boundary of the loop is +Infinity and is taken, the
    next one is +Infinity again and is refused: the call throws and the
    builder has one boundary more than before. *)
Theorem addLinearBins_to_infinity_is_partial (b : NumericBuilder) (cur : Q) (n : Z)
    (Hmax : maxBinBoundary b = Fin cur)
    (Hn : 2 <= n) :
  addLinearBins PosInf n b
  = (mkBuilder (unit_ b) (boundaries_ b ++ [PosInf]),
     Throw "The added max bin boundary must be larger than the current max boundary").
Proof. apply (addLinearBins_to_infinity b cur n Hmax Hn). Qed.







(** *** The bin of a value *)

Lemma findHighIndex_spec {A} (fn : A -> Z) (l : list A) :
  (findHighIndexInSortedArray l fn <= length l)%nat
  /\ (forall j x, (j < findHighIndexInSortedArray l fn)%nat ->
                  l !! j = Some x -> (fn x <? 0) = false)
  /\ (forall x, l !! findHighIndexInSortedArray l fn = Some x -> (fn x <? 0) = true).
Proof.
  induction l as [|a l (IH1 & IH2 & IH3)]; simpl.
  - split; [lia|]. split; [intros; lia | intros x H; discriminate].
  - destruct (fn a <? 0) eqn:E.
    + split; [lia|]. split; [intros; lia|].
      intros x [= <-]. exact E.
    + split; [lia|]. split.
      * intros [|j] x Hj Hx; simpl in Hx.
        -- injection Hx as <-. exact E.
        -- apply (IH2 j); [lia | exact Hx].
      * intros x Hx. simpl in Hx. apply IH3. exact Hx.
Qed.

(** What [getBinForValue] finds: the index is the one of the overflow bin
    or the value is below the upper bound of the bin, and the value is
    below the upper bound of no earlier bin. *)
Lemma getBinForValue_spec (value : num) (h : Numeric) :
  let i := getBinForValue value h in
  (forall j bin, (j < i)%nat -> allBins h !! j = Some bin ->
                 num_lt value (rmax (range bin)) = false)
  /\ (forall bin, (i < S (length (centralBins h)))%nat ->
                  allBins h !! i = Some bin ->
                  num_lt value (rmax (range bin)) = true).
Proof.
  unfold getBinForValue.
  set (fn := fun b : NumericBin => if num_lt value (rmax (range b)) then -1 else 1).
  destruct (findHighIndex_spec fn (allBins h)) as (H1 & H2 & H3).
  assert (Hfn : forall b, (fn b <? 0) = num_lt value (rmax (range b))).
  { intros b. unfold fn. destruct (num_lt value (rmax (range b))); reflexivity. }
  destruct (allBins h !! findHighIndexInSortedArray (allBins h) fn) as [b0|] eqn:E; cbv zeta.
  - split.
    + intros j bin Hj Hbin. rewrite <- Hfn. eapply H2; eauto.
    + intros bin _ Hbin. rewrite E in Hbin. injection Hbin as <-.
      rewrite <- Hfn. apply H3. reflexivity.
  - apply lookup_ge_None_1 in E.
    split.
    + intros j bin Hj Hbin. rewrite <- Hfn. eapply H2; [|exact Hbin].
      apply lookup_lt_Some in Hbin. lia.
    + intros bin Hlt. lia.
Qed.

Lemma num_lt_false_le (x : num) (y : Q) :
  isNaN x = false -> num_lt x (Fin y) = false -> num_le (Fin y) x = true.
Proof.
  destruct x as [| |q|]; simpl; try discriminate; try reflexivity.
  intros _ H. apply negb_false_iff in H. exact H.
Qed.

Lemma getBinForValue_in_bin (value : num) (h : Numeric)
    (Hlayout : layout_ok h = true)
    (Hvalue : isNaN value = false) :
  exists bin : NumericBin,
    allBins h !! getBinForValue value h = Some bin
    /\ ((getBinForValue value h < S (length (centralBins h)))%nat ->
        num_lt value (rmax (range bin)) = true)
    /\ ((0 < getBinForValue value h)%nat ->
        num_le (rmin (range bin)) value = true).
Proof.
  pose proof (getBinForValue_lt value h) as Hlt.
  destruct (lookup_lt_is_Some_2 _ _ Hlt) as [bin Hbin].
  destruct (getBinForValue_spec value h) as [Hbefore Hat].
  exists bin. split; [exact Hbin|]. split.
  - intros Hi. apply Hat; assumption.
  - intros Hi.
    destruct (getBinForValue value h) as [|j] eqn:E; [lia|].
    destruct (lookup_lt_is_Some_2 (allBins h) j) as [prev Hprev]; [lia|].
    destruct (layout_ok_adjacent h j prev bin Hlayout Hprev Hbin)
      as (x & y & Hx & Hy & Hxy).
    specialize (Hbefore j prev ltac:(lia) Hprev). rewrite Hx in Hbefore.
    apply (num_lt_false_le _ _ Hvalue) in Hbefore.
    rewrite Hy. destruct value as [| |v|]; simpl in *; try discriminate; try reflexivity.
    rewrite Qle_bool_iff in *. rewrite <- Hxy. exact Hbefore.
Qed.

(** X8: on a histogram that satisfies the layout invariant,
    [getBinForValue] finds for every value that is not NaN the bin that
    holds it: the value is below the upper bound of the bin unless the bin
    is the overflow bin, and it is at least the lower bound of the bin
    unless the bin is the underflow bin. *)
Theorem getBinForValue_holds_value (value : num) (h : Numeric)
    (Hlayout : layout_ok h = true)
    (Hvalue : isNaN value = false) :
  exists bin : NumericBin,
    allBins h !! getBinForValue value h = Some bin
    /\ ((getBinForValue value h < S (length (centralBins h)))%nat ->
        num_lt value (rmax (range bin)) = true)
    /\ ((0 < getBinForValue value h)%nat ->
        num_le (rmin (range bin)) value = true).
Proof. apply getBinForValue_in_bin; assumption. Qed.

(** *** Percentiles at the ends and between the outer boundaries *)

Lemma counts_upto_ge_length (h : Numeric) (j : nat) :
  (length (allBins h) <= j)%nat -> counts_upto h j = Z.of_nat (numValues h).
Proof.
  intros Hj. unfold counts_upto. rewrite take_ge by exact Hj.
  rewrite numValues_sum. reflexivity.
Qed.

Lemma counts_upto_mono (h : Numeric) (j j' : nat) :
  (j <= j')%nat -> counts_upto h j <= counts_upto h j'.
Proof.
  induction 1 as [|j' Hle IH]; [lia|].
  destruct (allBins h !! j') as [bin|] eqn:E.
  - rewrite (counts_upto_S h j' bin E). lia.
  - apply lookup_ge_None_1 in E.
    rewrite (counts_upto_ge_length h (S j')) by lia.
    rewrite (counts_upto_ge_length h j') in IH by lia. exact IH.
Qed.

Lemma counts_upto_le_total (h : Numeric) (j : nat) :
  counts_upto h j <= Z.of_nat (numValues h).
Proof.
  rewrite <- (counts_upto_ge_length h (Nat.max j (length (allBins h)))) by lia.
  apply counts_upto_mono. lia.
Qed.

(** X9: on a histogram that holds values, percentile 0 is the value
    reported for the first bin that is not empty, and percentile 1 the
    value reported for the last bin that is not empty. *)
Theorem percentile_ends (h : Numeric) (Hn : numValues h <> 0%nat) :
  (exists (k : nat) (bin : NumericBin),
      allBins h !! k = Some bin
      /\ count bin <> 0%nat
      /\ (forall j b, (j < k)%nat -> allBins h !! j = Some b -> count b = 0%nat)
      /\ getApproximatePercentile (Fin 0) h = Ok (bin_value h k bin))
  /\ (exists (k : nat) (bin : NumericBin),
        allBins h !! k = Some bin
        /\ count bin <> 0%nat
        /\ (forall j b, (k < j)%nat -> allBins h !! j = Some b -> count b = 0%nat)
        /\ getApproximatePercentile (Fin 1) h = Ok (bin_value h k bin)).
Proof.
  split.
  - destruct (getApproximatePercentile_walk h 0 ltac:(lra) Hn)
      as (k & bin & Hbin & Hall & Hlt & Hrun).
    cbv zeta in Hall, Hlt.
    assert (Hskip : Qfloor (inject_Z (Z.of_nat (numValues h) - 1) * 0) = 0).
    { assert (E : (inject_Z (Z.of_nat (numValues h) - 1) * 0 == inject_Z 0)%Q) by ring.
      rewrite E. apply Qfloor_Z. }
    rewrite Hskip in Hall, Hlt.
    exists k, bin. split; [exact Hbin|].
    pose proof (counts_upto_S h k bin Hbin) as HS.
    pose proof (Hall k ltac:(lia)) as Hk.
    split; [lia|]. split; [|exact Hrun].
    intros j b Hj Hb.
    pose proof (counts_upto_S h j b Hb) as HSj.
    pose proof (Hall (S j) ltac:(lia)) as H1.
    pose proof (counts_upto_mono h 0 j ltac:(lia)) as H2.
    rewrite counts_upto_0 in H2. lia.
  - destruct (getApproximatePercentile_walk h 1 ltac:(lra) Hn)
      as (k & bin & Hbin & Hall & Hlt & Hrun).
    cbv zeta in Hall, Hlt.
    assert (Hskip : Qfloor (inject_Z (Z.of_nat (numValues h) - 1) * 1)
                    = Z.of_nat (numValues h) - 1).
    { assert (E : (inject_Z (Z.of_nat (numValues h) - 1) * 1
                   == inject_Z (Z.of_nat (numValues h) - 1))%Q) by ring.
      rewrite E. apply Qfloor_Z. }
    rewrite Hskip in Hall, Hlt.
    exists k, bin. split; [exact Hbin|].
    pose proof (counts_upto_S h k bin Hbin) as HS.
    pose proof (Hall k ltac:(lia)) as Hk.
    pose proof (counts_upto_le_total h (S k)) as Htot.
    split; [lia|]. split; [|exact Hrun].
    intros j b Hj Hb.
    pose proof (counts_upto_S h j b Hb) as HSj.
    pose proof (counts_upto_le_total h (S j)) as H1.
    pose proof (counts_upto_mono h (S k) j ltac:(lia)) as H2.
    lia.
Qed.


(** *** The round trip of a histogram through its dictionary *)

Lemma map_outcome_id {A B} (f : B -> outcome A) (g : A -> B) (l : list A) :
  (forall x, f (g x) = Ok x) ->
  map_outcome f (map g l) = Ok l.
Proof.
  intros Hfg. induction l as [|x l IH]; simpl; [reflexivity|].
  rewrite Hfg, IH. reflexivity.
Qed.

Lemma NumericBin_roundtrip (b : NumericBin) :
  (forall d, Diagnostic_fromDict (Diagnostic_asDict d) = Ok d) ->
  isEmpty (range b) = false ->
  NumericBin_fromDict (NumericBin_asDict b) = Ok b.
Proof.
  intros Hd He. unfold NumericBin_fromDict, NumericBin_asDict. simpl.
  rewrite (map_outcome_id _ _ _ Hd). simpl.
  destruct b as [[e lo hi] c ds]. simpl in *. subst e. reflexivity.
Qed.

Lemma ranges_set_bins (h : Numeric) :
  ranges_set h = true ->
  isEmpty (nrange h) = false
  /\ isEmpty (range (underflowBin h)) = false
  /\ Forall (fun b => isEmpty (range b) = false) (centralBins h)
  /\ isEmpty (range (overflowBin h)) = false.
Proof.
  unfold ranges_set. intros H. apply andb_prop in H as [H0 H].
  apply negb_true_iff in H0. split; [exact H0|].
  rewrite forallb_forall in H.
  assert (Hin : forall b, In b (allBins h) -> isEmpty (range b) = false).
  { intros b Hb. apply negb_true_iff. apply H. exact Hb. }
  unfold allBins in Hin. split; [apply Hin; left; reflexivity|].
  split.
  - apply Forall_forall. intros b Hb. apply Hin.
    apply in_or_app. right. apply in_or_app. left.
    apply list_elem_of_In. exact Hb.
  - apply Hin. apply in_or_app. right. apply in_or_app. right. left. reflexivity.
Qed.

(** What comes back from the dictionary of a histogram, when the
    collaborators read back what they wrote. *)
Lemma Numeric_fromDict_asDict (h : Numeric) :
  Unit_fromJSON (Unit_asJSON (unit h)) = Ok (unit h) ->
  Running_fromDict (Running_asDict (running h)) = running h ->
  (forall d, Diagnostic_fromDict (Diagnostic_asDict d) = Ok d) ->
  ranges_set h = true ->
  Numeric_fromDict (Numeric_asDict h) = Ok (set_maxCount_ (max_bin_count h) h).
Proof.
  intros Hu Hr Hd Hs.
  destruct (ranges_set_bins h Hs) as (Hn & Hub & Hcb & Hob).
  unfold Numeric_fromDict, Numeric_asDict.
  cbn [nd_unit nd_min nd_max nd_numNans nd_nanDiagnostics nd_running
       nd_sampleValues nd_maxNumSampleValues nd_underflowBin nd_centralBins
       nd_overflowBin].
  rewrite (NumericBin_roundtrip _ Hd Hub). cbn [obind].
  assert (Hc : map_outcome NumericBin_fromDict (map NumericBin_asDict (centralBins h))
               = Ok (centralBins h)).
  { clear - Hd Hcb. induction Hcb as [|b l Hb _ IH]; simpl; [reflexivity|].
    rewrite (NumericBin_roundtrip _ Hd Hb), IH. reflexivity. }
  rewrite Hc. cbn [obind].
  rewrite (NumericBin_roundtrip _ Hd Hob). cbn [obind].
  rewrite Hu. cbn [obind].
  rewrite (map_outcome_id _ _ _ Hd). cbn [obind].
  rewrite Numeric_new_eq, Hr.
  unfold max_bin_count, allBins, sampleValues.
  destruct h as [u [e lo hi] nn nd ru mc ub cbs ob sv mx]. simpl in *. subst e.
  reflexivity.
Qed.

(** X11: when the unit, the running statistics and the diagnostics read
    back what they wrote and no range of the histogram is empty,
    [Numeric.fromDict(h.asDict())] returns the histogram itself, field for
    field, except that the cached maximum is computed anew from the
    counts of the bins; so a histogram whose cache is right comes back
    unchanged, and [clone] is that round trip. *)
Theorem Numeric_roundtrip (h : Numeric)
    (Hunit : Unit_fromJSON (Unit_asJSON (unit h)) = Ok (unit h))
    (Hrunning : Running_fromDict (Running_asDict (running h)) = running h)
    (Hdiag : forall d, Diagnostic_fromDict (Diagnostic_asDict d) = Ok d)
    (Hranges : ranges_set h = true) :
  Numeric_fromDict (Numeric_asDict h) = Ok (set_maxCount_ (max_bin_count h) h)
  /\ clone h = Ok (set_maxCount_ (max_bin_count h) h)
  /\ (maxCount h = max_bin_count h -> Numeric_fromDict (Numeric_asDict h) = Ok h).
Proof.
  pose proof (Numeric_fromDict_asDict h Hunit Hrunning Hdiag Hranges) as H.
  split; [exact H|]. split; [exact H|].
  intros Hc. rewrite H. unfold maxCount in Hc. rewrite <- Hc.
  destruct h; reflexivity.
Qed.

(** *** Histograms that can be added *)

Lemma num_eq_sym (x y : num) : num_eq x y = num_eq y x.
Proof.
  destruct x as [| |a|], y as [| |b|]; simpl; try reflexivity.
  destruct (Qeq_bool a b) eqn:E, (Qeq_bool b a) eqn:E'; try reflexivity.
  - apply Qeq_bool_iff in E. symmetry in E. apply Qeq_bool_iff in E. congruence.
  - apply Qeq_bool_iff in E'. symmetry in E'. apply Qeq_bool_iff in E'. congruence.
Qed.

Lemma Range_equals_sym (a b : Range) : Range_equals a b = Range_equals b a.
Proof.
  unfold Range_equals.
  destruct (isEmpty a), (isEmpty b); simpl; try reflexivity.
  rewrite (num_eq_sym (rmin a)), (num_eq_sym (rmax a)). reflexivity.
Qed.

Lemma canAddNumeric_true_sym (a b : Numeric) :
  canAddNumeric a b = true -> canAddNumeric b a = true.
Proof.
  intros H. destruct (canAddNumeric_true a b H) as (Hr & Hu & Hl & Hall).
  apply canAddNumeric_intro; auto.
  - rewrite Range_equals_sym. exact Hr.
  - intros i x y Hx Hy. rewrite Range_equals_sym. eauto.
Qed.

(** X12: [canAddNumeric] is symmetric. *)
Theorem canAddNumeric_symmetric (a b : Numeric) :
  canAddNumeric a b = canAddNumeric b a.
Proof.
  destruct (canAddNumeric a b) eqn:Hab.
  - symmetry. apply canAddNumeric_true_sym. exact Hab.
  - destruct (canAddNumeric b a) eqn:Hba; [|reflexivity].
    apply canAddNumeric_true_sym in Hba. congruence.
Qed.

Lemma sum_list_with_combined (l l' : list NumericBin) :
  length l = length l' ->
  sum_list_with count (zip_with combined_bin l l')
  = (sum_list_with count l + sum_list_with count l')%nat.
Proof.
  revert l'. induction l as [|a l IH]; intros [|b l'] Hlen; simpl in *;
    try discriminate; [reflexivity|].
  rewrite IH by lia. lia.
Qed.

(** X13: two histograms that can be added give the same counts whichever
    is added to the other: both calls return, bin for bin the counts are
    equal, numValues is the sum of the two numValues and numNans the sum
    of the two numNans. *)
Theorem addNumeric_counts_commute (a b : Numeric)
    (Hadd : canAddNumeric a b = true) :
  exists a' b' : Numeric,
    addNumeric b a = (a', Ok ())
    /\ addNumeric a b = (b', Ok ())
    /\ map count (allBins a') = map count (allBins b')
    /\ numValues a' = (numValues a + numValues b)%nat
    /\ numValues b' = numValues a'
    /\ numNans a' = (numNans a + numNans b)%nat
    /\ numNans b' = numNans a'.
Proof.
  pose proof (canAddNumeric_true_sym a b Hadd) as Hba.
  destruct (canAddNumeric_true a b Hadd) as (_ & _ & Hlen & _).
  destruct (addNumeric_applies a b Hadd) as (a' & Ha & Hbins & Hf).
  destruct (addNumeric_applies b a Hba) as (b' & Hb & Hbins' & Hf').
  unfold other_fields in Hf, Hf'.
  injection Hf as _ _ Hnn _ _ _ _ _. injection Hf' as _ _ Hnn' _ _ _ _ _.
  exists a', b'. split; [exact Ha|]. split; [exact Hb|].
  assert (Hc : map count (allBins a') = map count (allBins b')).
  { rewrite Hbins, Hbins', !map_count_combined.
    generalize (map count (allBins a)) (map count (allBins b)).
    induction l as [|x l IH]; intros [|y l']; simpl; f_equal; auto; lia. }
  split; [exact Hc|].
  assert (Hv : numValues a' = (numValues a + numValues b)%nat).
  { rewrite !numValues_sum, Hbins. apply sum_list_with_combined. exact Hlen. }
  assert (Hv' : numValues b' = (numValues b + numValues a)%nat).
  { rewrite !numValues_sum, Hbins'. apply sum_list_with_combined. lia. }
  repeat split; lia.
Qed.

Lemma add_all_same_layout (values : list num) (h : Numeric) :
  map range (allBins (add_all values h)) = map range (allBins h)
  /\ unit (add_all values h) = unit h
  /\ nrange (add_all values h) = nrange h.
Proof.
  apply (add_all_invariant
           (fun h' => map range (allBins h') = map range (allBins h)
                      /\ unit h' = unit h /\ nrange h' = nrange h));
    [|repeat split].
  intros v h0 (H1 & H2 & H3).
  rewrite Numeric_add_ranges.
  destruct (Numeric_add_unit_range v None h0) as [-> ->]. auto.
Qed.

Lemma Range_equals_refl_finite (r : Range) :
  isFinite (rmin r) = true -> isFinite (rmax r) = true -> Range_equals r r = true.
Proof.
  intros Hlo Hhi. unfold Range_equals.
  destruct (isEmpty r); simpl; [reflexivity|].
  destruct (rmin r), (rmax r); try discriminate. simpl.
  rewrite !Qeq_bool_refl. reflexivity.
Qed.

(** The ranges [build] makes of sorted boundaries have finite bounds. *)
Lemma build_ranges_finite (b : NumericBuilder) :
  sorted_boundaries (boundaries_ b) ->
  (isFinite (rmin (nrange (build b))) = true
   /\ isFinite (rmax (nrange (build b))) = true)
  /\ Forall (fun bin => isFinite (rmin (range bin)) = true
                        /\ isFinite (rmax (range bin)) = true)
            (allBins (build b)).
Proof.
  intros (Hne & Hfin & _).
  assert (Hat : forall i, (i < length (boundaries_ b))%nat ->
                  isFinite (at_index (boundaries_ b) i) = true).
  { intros i Hi. eapply Hfin. apply at_index_lookup. exact Hi. }
  assert (Hpos : (0 < length (boundaries_ b))%nat).
  { destruct (boundaries_ b); [congruence | simpl; lia]. }
  assert (Hmin : isFinite (minBinBoundary b) = true) by (apply Hat; lia).
  assert (Hmax : isFinite (maxBinBoundary b) = true) by (apply Hat; lia).
  unfold build. rewrite allBins_Numeric_new, Numeric_new_eq.
  cbn [bi_underflowBin bi_centralBins bi_overflowBin nrange].
  split; [split; assumption|].
  apply Forall_app. split; [repeat constructor; assumption|].
  apply Forall_app. split; [|repeat constructor; assumption].
  apply Forall_forall. intros bin Hbin.
  apply list_elem_of_In, in_map_iff in Hbin as (i & <- & Hi).
  apply in_seq in Hi. simpl. split; apply Hat; lia.
Qed.

(** X14: histograms built by the same builder can be added, whatever was
    added to each of them: [canAddNumeric] holds, [addNumeric] returns,
    and the result counts the values of both. *)
Theorem same_builder_histograms_add (b : NumericBuilder) (values values' : list num)
    (Hsorted : sorted_boundaries (boundaries_ b)) :
  let h := add_all values (build b) in
  let h' := add_all values' (build b) in
  canAddNumeric h h' = true
  /\ exists sum : Numeric,
       addNumeric h' h = (sum, Ok ())
       /\ numValues sum = (numValues h + numValues h')%nat
       /\ numNans sum = (numNans h + numNans h')%nat.
Proof.
  intros h h'.
  destruct (add_all_same_layout values (build b)) as (Hr & Hu & Hn).
  destruct (add_all_same_layout values' (build b)) as (Hr' & Hu' & Hn').
  destruct (build_ranges_finite b Hsorted) as ((Hlo & Hhi) & Hbins).
  fold h in Hr, Hu, Hn. fold h' in Hr', Hu', Hn'.
  assert (Hlen : length (allBins h) = length (allBins h')).
  { rewrite <- (length_map range (allBins h)), Hr, <- Hr', length_map. reflexivity. }
  assert (Hadd : canAddNumeric h h' = true).
  { apply canAddNumeric_intro.
    - rewrite Hn, Hn'. apply Range_equals_refl_finite; assumption.
    - congruence.
    - exact Hlen.
    - intros i x y Hx Hy.
      assert (Hrx : map range (allBins (build b)) !! i = Some (range x)).
      { rewrite <- Hr. change (map range ?l) with (range <$> l).
        rewrite list_lookup_fmap, Hx. reflexivity. }
      assert (Hry : map range (allBins (build b)) !! i = Some (range y)).
      { rewrite <- Hr'. change (map range ?l) with (range <$> l).
        rewrite list_lookup_fmap, Hy. reflexivity. }
      rewrite Hrx in Hry. injection Hry as <-.
      change (map range ?l) with (range <$> l) in Hrx.
      rewrite list_lookup_fmap in Hrx.
      destruct (allBins (build b) !! i) as [z|] eqn:Ez; [|discriminate].
      injection Hrx as Hz.
      rewrite Forall_forall in Hbins.
      destruct (Hbins z) as [Hzlo Hzhi];
        [eapply list_elem_of_lookup_2; exact Ez|].
      rewrite <- Hz. apply Range_equals_refl_finite; assumption. }
  split; [exact Hadd|].
  destruct (addNumeric_applies h h' Hadd) as (sum & Hrun & Hsum & Hf).
  unfold other_fields in Hf. injection Hf as _ _ Hnn _ _ _ _ _.
  exists sum. split; [exact Hrun|]. split; [|exact Hnn].
  rewrite !numValues_sum, Hsum. apply sum_list_with_combined. exact Hlen.
Qed.

(** *** Merging *)






(** X17: when the two operands are histograms that can be added, the
    collaborators read back what they wrote and no range is empty,
    [merge] returns a histogram with the unit and the ranges of the first
    operand whose bins count, bin for bin, the values of both, whose
    numNans is the sum of both and whose running statistics are the
    merged ones. *)
Theorem merge_of_addable_histograms (a b : Numeric)
    (Hadd : canAddNumeric a b = true)
    (Hunit_a : Unit_fromJSON (Unit_asJSON (unit a)) = Ok (unit a))
    (Hrun_a : Running_fromDict (Running_asDict (running a)) = running a)
    (Hrun_b : Running_fromDict (Running_asDict (running b)) = running b)
    (Hdiag : forall d, Diagnostic_fromDict (Diagnostic_asDict d) = Ok d)
    (Hranges_a : ranges_set a = true)
    (Hranges_b : ranges_set b = true) :
  exists h : Numeric,
    merge (IsNumeric a) (IsNumeric b) = Ok h
    /\ unit h = unit a
    /\ map range (allBins h) = map range (allBins a)
    /\ map count (allBins h)
       = zip_with Nat.add (map count (allBins a)) (map count (allBins b))
    /\ numValues h = (numValues a + numValues b)%nat
    /\ numNans h = (numNans a + numNans b)%nat
    /\ running h = Running_merge (running a) (running b).
Proof.
  destruct (canAddNumeric_true a b Hadd) as (_ & Hu & Hlen & _).
  assert (Hunit_b : Unit_fromJSON (Unit_asJSON (unit b)) = Ok (unit b))
    by (rewrite <- Hu; exact Hunit_a).
  unfold merge. cbn [base_unit].
  rewrite (bool_decide_eq_true_2 _ Hu). cbn [negb]. rewrite Hadd.
  unfold clone.
  rewrite (Numeric_fromDict_asDict a Hunit_a Hrun_a Hdiag Hranges_a).
  rewrite (Numeric_fromDict_asDict b Hunit_b Hrun_b Hdiag Hranges_b).
  cbn [obind].
  set (a' := set_maxCount_ (max_bin_count a) a).
  set (b' := set_maxCount_ (max_bin_count b) b).
  assert (Hadd' : canAddNumeric a' b' = true) by exact Hadd.
  destruct (addNumeric_applies a' b' Hadd') as (h & -> & Hbins & Hf).
  unfold other_fields in Hf. injection Hf as Hhu _ Hnn _ Hru _ _ _.
  change (allBins a') with (allBins a) in Hbins.
  change (allBins b') with (allBins b) in Hbins.
  exists h. split; [reflexivity|]. split; [exact Hhu|].
  split; [rewrite Hbins; apply map_range_combined; exact Hlen|].
  split; [rewrite Hbins; apply map_count_combined|].
  split; [rewrite !numValues_sum, Hbins; apply sum_list_with_combined; exact Hlen|].
  split; [exact Hnn | exact Hru].
Qed.

(** *** Interpolated counts *)





(** *** What [add] offers to the reservoirs *)

(** X19: [add] offers the value to the reservoir of sample values with a
    stream length that counts this value, numValues + numNans after the
    call, and with the capacity maxNumSampleValues; a NaN that comes with
    a diagnostic offers it to nanDiagnostics with the new numNans and the
    capacity 16, and without a diagnostic nanDiagnostics is untouched. *)
Theorem add_offers_to_reservoirs (value : num) (opt_diagnostic : option Diagnostic)
    (h : Numeric) :
  let h' := Numeric_add value opt_diagnostic h in
  sampleValues h'
  = uniformlySampleStream (sampleValues h) (numValues h + numNans h + 1) value
      (maxNumSampleValues h)
  /\ (numValues h' + numNans h' = numValues h + numNans h + 1)%nat
  /\ nanDiagnostics h'
     = match opt_diagnostic with
       | Some d =>
           if isNaN value
           then uniformlySampleStream (nanDiagnostics h) (numNans h + 1) d 16
           else nanDiagnostics h
       | None => nanDiagnostics h
       end.
Proof.
  intros h'.
  assert (Hone : (numValues h' + numNans h' = numValues h + numNans h + 1)%nat).
  { unfold h'. destruct (isNaN value) eqn:Hv.
    - destruct (Numeric_add_NaN value opt_diagnostic h Hv) as [Hb Hn].
      rewrite !numValues_sum, Hb, Hn. lia.
    - destruct (Numeric_add_number value opt_diagnostic h Hv)
        as (bin & Hbin & Hb & Hn & _).
      rewrite !numValues_sum, Hb, Hn.
      pose proof (sum_list_with_insert count _ _ bin
                    (NumericBin_add value opt_diagnostic bin) Hbin) as Hs.
      rewrite (proj2 (NumericBin_add_fields value opt_diagnostic bin)) in Hs. lia. }
  split; [|split; [exact Hone|]].
  - rewrite <- Hone. unfold h', Numeric_add, sampleValues.
    cbn [sampleValues_ set_sampleValues_].
    match goal with
    | |- uniformlySampleStream ?a ?n _ ?c = uniformlySampleStream ?a' ?n' _ ?c' =>
        assert (Ha : a = a'); [|assert (Hc : c = c'); [|assert (Hn : n = n')]]
    end.
    + destruct (isNaN value).
      * destruct opt_diagnostic; reflexivity.
      * destruct (allBins h !! getBinForValue value h); [|reflexivity].
        match goal with
        | |- context [if ?c then _ else _] => destruct c; reflexivity
        end.
    + destruct (isNaN value).
      * destruct opt_diagnostic; reflexivity.
      * destruct (allBins h !! getBinForValue value h); [|reflexivity].
        match goal with
        | |- context [if ?c then _ else _] => destruct c; reflexivity
        end.
    + reflexivity.
    + rewrite Ha, Hc, Hn. reflexivity.
  - unfold h', Numeric_add. cbn [nanDiagnostics set_sampleValues_].
    destruct (isNaN value).
    + destruct opt_diagnostic; reflexivity.
    + destruct (allBins h !! getBinForValue value h).
      * match goal with
        | |- context [if ?c then _ else _] => destruct c
        end; destruct opt_diagnostic; reflexivity.
      * destruct opt_diagnostic; reflexivity.
Qed.

(** *** A sample +Infinity *)

Lemma range_step_infinity (x : num) (r : Range) :
  x <> NegInf ->
  no_lower_infinity r = true ->
  let r1 := if negb (isNaN x) then Range_addValue x r else r in
  no_lower_infinity r1 = true
  /\ (x = PosInf \/ (isEmpty r = false /\ rmax r = PosInf) ->
      isEmpty r1 = false /\ rmax r1 = PosInf)
  /\ (isEmpty r1 = false -> isFinite (rmin r1) = true ->
      (isEmpty r = false /\ isFinite (rmin r) = true) \/ isFinite x = true).
Proof.
  intros Hx Hr.
  destruct r as [e lo hi]. unfold no_lower_infinity, Range_addValue in *.
  destruct x as [| |v|]; [| congruence | |];
    destruct e; simpl in *;
    try (destruct lo, hi; simpl in *; try discriminate);
    repeat match goal with
           | |- context [if ?c then _ else _] => destruct c; simpl
           end;
    repeat split; intros; auto;
    repeat match goal with
           | H : _ \/ _ |- _ => destruct H
           | H : _ /\ _ |- _ => destruct H
           end;
    try discriminate; try congruence; auto.
Qed.

Lemma range_fold_infinity (samples : list num) :
  ~ In NegInf samples ->
  forall r : Range,
    no_lower_infinity r = true ->
    let r' := fold_left (fun r sample =>
                           if negb (isNaN sample) then Range_addValue sample r else r)
                        samples r in
    no_lower_infinity r' = true
    /\ (In PosInf samples \/ (isEmpty r = false /\ rmax r = PosInf) ->
        isEmpty r' = false /\ rmax r' = PosInf)
    /\ (isEmpty r' = false -> isFinite (rmin r') = true ->
        (isEmpty r = false /\ isFinite (rmin r) = true)
        \/ Exists (fun x => isFinite x = true) samples).
Proof.
  induction samples as [|x samples IH]; intros Hno r Hr; cbn [fold_left].
  - cbv zeta. split; [exact Hr|]. split.
    + intros [[]|H]; exact H.
    + intros He Hf. left. auto.
  - assert (Hx : x <> NegInf) by (intros ->; apply Hno; left; reflexivity).
    assert (Hno' : ~ In NegInf samples) by (intros H; apply Hno; right; exact H).
    destruct (range_step_infinity x r Hx Hr) as (H1 & H2 & H3).
    cbv zeta in H1, H2, H3.
    destruct (IH Hno' _ H1) as (I1 & I2 & I3). cbv zeta in I1, I2, I3.
    split; [exact I1|]. split.
    + intros [[Hin|Hin]|Hinf].
      * apply I2. right. apply H2. left. exact Hin.
      * apply I2. left. exact Hin.
      * apply I2. right. apply H2. right. exact Hinf.
    + intros He Hf. destruct (I3 He Hf) as [[He1 Hf1]|Hex].
      * destruct (H3 He1 Hf1) as [Hr0|Hfx]; [left; exact Hr0|].
        right. apply Exists_cons_hd. exact Hfx.
      * right. apply Exists_cons_tl. exact Hex.
Qed.

Lemma ceil_sqrt_ge_2 (n : nat) : (2 <= n)%nat -> 2 <= ceil_sqrt n.
Proof.
  intros Hn. unfold ceil_sqrt.
  assert (H1 : 0 < Z.sqrt (Z.of_nat n)) by (apply Z.sqrt_pos; lia).
  destruct (Z.eqb_spec (Z.sqrt (Z.of_nat n) * Z.sqrt (Z.of_nat n)) (Z.of_nat n)) as [E|E];
    [|lia].
  destruct (Z.eq_dec (Z.sqrt (Z.of_nat n)) 1) as [E1|E1]; [|lia].
  rewrite E1 in E. lia.
Qed.

(** X20: a sample +Infinity makes [buildFromSamples] throw, unless there
    is a sample -Infinity as well: the range reaches +Infinity, and
    [addLinearBins] refuses either its target or the second boundary of
    its loop. *)
Theorem buildFromSamples_plus_infinity_throws (u : Unit) (samples : list num)
    (Hinf : In PosInf samples)
    (Hno : ~ In NegInf samples) :
  buildFromSamples u samples
  = Throw "The new max bin boundary must be greater than the previous max bin boundary"
  \/ buildFromSamples u samples
     = Throw "The added max bin boundary must be larger than the current max boundary".
Proof.
  destruct (range_fold_infinity samples Hno Range_new eq_refl) as (H1 & H2 & H3).
  cbv zeta in H1, H2, H3.
  destruct (H2 (or_introl Hinf)) as [He Hmax].
  unfold buildFromSamples. cbv zeta.
  set (r := fold_left (fun r sample =>
                         if negb (isNaN sample) then Range_addValue sample r else r)
                      samples Range_new) in *.
  rewrite He.
  assert (Hlen : (0 < length samples)%nat).
  { destruct samples; [contradiction | simpl; lia]. }
  unfold no_lower_infinity in H1. rewrite He, Hmax in H1. simpl in H1.
  destruct (rmin r) as [| |a|] eqn:Hmin; try discriminate.
  - (* a finite sample and +Infinity *)
    rewrite Hmax. cbn [num_eq].
    assert (H2len : (2 <= length samples)%nat).
    { destruct (H3 He eq_refl) as [[Hc _]|Hex];
        [discriminate|].
      destruct samples as [|x [|y l]]; simpl; try lia; [contradiction|].
      apply Exists_cons in Hex as [Hfx|Hex]; [|inversion Hex].
      destruct Hinf as [E|[]]. rewrite E in Hfx. discriminate. }
    rewrite Hmax, Hmin.
    rewrite (addLinearBins_to_infinity (NumericBuilder_new u (Fin a)) a
               (ceil_sqrt (length samples)) eq_refl (ceil_sqrt_ge_2 _ H2len)).
    right. reflexivity.
  - (* nothing but +Infinity *)
    rewrite Hmax. cbn [num_eq].
    unfold Range_addValue. rewrite He, Hmin, Hmax. cbn.
    pose proof (ceil_sqrt_pos (length samples) Hlen) as Hpos.
    unfold addLinearBins.
    destruct (Z.leb_spec (ceil_sqrt (length samples)) 0) as [?|_]; [lia|].
    left. reflexivity.
Qed.

End Properties.

(** C8 at the scalar NaN milliseconds. *)
Lemma scalar_roundtrip_witness :
  let s := @mkScalar Demo.demo Demo.ms_smallerIsBetter NaN in
  Unit_fromJSON (Unit_asJSON (s_unit s)) = Ok (s_unit s)
  /\ sd_value (ScalarNumeric_asDict s) = Some (JStr "NaN")
  /\ ScalarNumeric_fromDict (ScalarNumeric_asDict s) = Ok s.
Proof.
  intros s. split; [reflexivity|].
  destruct (scalar_roundtrip s eq_refl) as (Hv & _ & Hrt).
  split; [exact Hv | exact Hrt].
Defined.

(** C3 is not what the code does when the unit does not care: a scalar of
    the same unit is answered DONT_CARE, nothing is thrown. *)
Lemma significance_scalar_dont_care :
  getDifferenceSignificance (IsScalar Demo.unitless_scalar) None Demo.unitless_numeric
  = Ok DONT_CARE
  /\ ~ (exists m, getDifferenceSignificance (IsScalar Demo.unitless_scalar) None
                    Demo.unitless_numeric = Throw m).
Proof.
  split; [reflexivity|]. intros [m Hm]. vm_compute in Hm. discriminate Hm.
Qed.

(** C3 on a pair of histograms in milliseconds, one empty, one holding 7. *)
Lemma significance_cases_witness :
  getDifferenceSignificance (IsNumeric Demo.numeric_with_7) (Some (Fin (1 # 1000)))
    Demo.numeric_0_10_2
  = Ok INSIGNIFICANT.
Proof.
  destruct (significance_cases Demo.numeric_0_10_2 (IsNumeric Demo.numeric_with_7)
              (Some (Fin (1 # 1000)))) as (_ & _ & H).
  apply H; [reflexivity | discriminate].
Defined.


(** C9 on two empty histograms of different layouts. *)
Lemma buildFromSamples_empty_throws_witness :
  merge (IsNumeric Demo.numeric_0) (IsNumeric Demo.numeric_0_10_2)
  = Throw "Bin count must be positive".
Proof.
  apply (proj2 (proj2 (proj2 buildFromSamples_empty_throws))); reflexivity.
Defined.

(** C6 with infinite outer bounds fails: the underflow bin starts at
    -MAX_VALUE, not at -Infinity, and the overflow bin ends at MAX_VALUE,
    not at +Infinity. *)
Lemma linear_layout_outer_bounds_finite :
  let h := Demo.numeric_0_10_2 in
  rmin (range (underflowBin h)) <> NegInf
  /\ rmax (range (overflowBin h)) <> PosInf
  /\ map range (allBins h)
     <> [ Range_fromExplicitRange NegInf (num_of_Z 0);
          Range_fromExplicitRange (num_of_Z 0) (num_of_Z 5);
          Range_fromExplicitRange (num_of_Z 5) (num_of_Z 10);
          Range_fromExplicitRange (num_of_Z 10) PosInf ].
Proof.
  repeat split; vm_compute; discriminate.
Qed.

(** C5 on two histograms of different layouts: the addition is refused
    and the receiver is as it was. *)
Lemma addNumeric_all_or_nothing_witness :
  addNumeric Demo.numeric_0 Demo.numeric_with_7
  = (Demo.numeric_with_7, Throw "Merging incompatible Numerics.").
Proof.
  apply (proj1 (proj2 (addNumeric_all_or_nothing Demo.numeric_with_7 Demo.numeric_0))).
  vm_compute. reflexivity.
Defined.

(** C1 fails on [addNumeric]: two histograms of the layout 0, 5, 10 that
    each hold the value 7 are added without a throw; the bin [5, 10] then
    counts 2 and the cache still says 1. *)
Lemma addNumeric_leaves_maxCount_stale :
  let r := addNumeric Demo.numeric_with_7 Demo.numeric_with_7 in
  snd r = Ok ()
  /\ map count (allBins (fst r)) = [0; 0; 2; 0]%nat
  /\ max_bin_count (fst r) = 2%nat
  /\ maxCount (fst r) = 1%nat.
Proof.
  vm_compute. repeat split; reflexivity.
Qed.

(** The same through [merge], which clones both operands and adds one
    clone to the other. *)
Lemma merge_leaves_maxCount_stale :
  match merge (IsNumeric Demo.numeric_with_7) (IsNumeric Demo.numeric_with_7) with
  | Ok h => max_bin_count h = 2%nat /\ maxCount h = 1%nat
  | Throw _ => False
  end.
Proof.
  vm_compute. split; reflexivity.
Qed.



(** The median of 1, ..., 10 in five bins over [0, 10]: skip is 4, the
    walk stops in the bin [4, 6], whose midpoint is 5. *)
Example median_of_1_to_10 :
  map count (allBins Demo.numeric_1_to_10) = [0; 1; 2; 2; 2; 2; 1]%nat
  /\ getApproximatePercentile (Fin (1 # 2)) Demo.numeric_1_to_10 = Ok (Fin 5).
Proof.
  vm_compute. split; reflexivity.
Qed.



(** ** The further properties, each on an example *)

(** X2 on the histogram built from the samples 1, NaN, 3 and on a clone
    of the histogram of 1, ..., 10. *)
Lemma maxCount_is_max_without_addNumeric_witness :
  exists h h' : Numeric,
    @buildFromSamples Demo.demo Demo.ms_smallerIsBetter [Fin 1; NaN; Fin 3] = Ok h
    /\ maxCount h = max_bin_count h
    /\ clone Demo.numeric_1_to_10 = Ok h'
    /\ maxCount h' = max_bin_count h'.
Proof.
  destruct (@maxCount_is_max_without_addNumeric Demo.demo) as (_ & Hb & Hc).
  destruct (@buildFromSamples_returns Demo.demo Demo.ms_smallerIsBetter
              [Fin 1; NaN; Fin 3]) as [h Hh]; [discriminate | reflexivity |].
  assert (Hclone : clone Demo.numeric_1_to_10 = Ok Demo.numeric_1_to_10)
    by (vm_compute; reflexivity).
  exists h, Demo.numeric_1_to_10.
  split; [exact Hh|]. split; [exact (Hb _ _ _ Hh)|].
  split; [exact Hclone | exact (Hc _ _ Hclone)].
Defined.

(** X3 on the samples 1, NaN, 3 in milliseconds. *)
Lemma buildFromSamples_counts_every_sample_witness :
  exists h : Numeric,
    @buildFromSamples Demo.demo Demo.ms_smallerIsBetter [Fin 1; NaN; Fin 3] = Ok h
    /\ numNans h = 1%nat
    /\ (numValues h + 1 = 3)%nat
    /\ unit h = Demo.ms_smallerIsBetter.
Proof.
  destruct (@buildFromSamples_returns Demo.demo Demo.ms_smallerIsBetter
              [Fin 1; NaN; Fin 3]) as [h Hh]; [discriminate | reflexivity |].
  exists h. split; [exact Hh|].
  exact (buildFromSamples_counts_every_sample _ _ _ Hh).
Defined.


(** X5 on two bins from 0 to +Infinity. *)
Lemma addLinearBins_to_infinity_is_partial_witness :
  addLinearBins PosInf 2 (@NumericBuilder_new Demo.demo Demo.ms_smallerIsBetter (Fin 0))
  = (@mkBuilder Demo.demo Demo.ms_smallerIsBetter [Fin 0; PosInf],
     Throw "The added max bin boundary must be larger than the current max boundary").
Proof.
  apply (@addLinearBins_to_infinity_is_partial Demo.demo
           (@NumericBuilder_new Demo.demo Demo.ms_smallerIsBetter (Fin 0)) 0).
  - reflexivity.
  - lia.
Defined.



(** X8 on the value 7 in the histogram of the layout 0, 5, 10, which belongs to
    the bin [5, 10]. *)
Lemma getBinForValue_holds_value_witness :
  let h := Demo.numeric_0_10_2 in
  getBinForValue (Fin 7) h = 2%nat
  /\ exists bin : NumericBin,
       allBins h !! getBinForValue (Fin 7) h = Some bin
       /\ ((getBinForValue (Fin 7) h < S (length (centralBins h)))%nat ->
           num_lt (Fin 7) (rmax (range bin)) = true)
       /\ ((0 < getBinForValue (Fin 7) h)%nat ->
           num_le (rmin (range bin)) (Fin 7) = true).
Proof.
  intros h. split; [vm_compute; reflexivity|].
  apply getBinForValue_holds_value; vm_compute; reflexivity.
Defined.

(** X9 on the histogram of 1, ..., 10. *)
Lemma percentile_ends_witness :
  let h := Demo.numeric_1_to_10 in
  (exists (k : nat) (bin : NumericBin),
      allBins h !! k = Some bin
      /\ count bin <> 0%nat
      /\ (forall j b, (j < k)%nat -> allBins h !! j = Some b -> count b = 0%nat)
      /\ getApproximatePercentile (Fin 0) h = Ok (bin_value h k bin))
  /\ (exists (k : nat) (bin : NumericBin),
        allBins h !! k = Some bin
        /\ count bin <> 0%nat
        /\ (forall j b, (k < j)%nat -> allBins h !! j = Some b -> count b = 0%nat)
        /\ getApproximatePercentile (Fin 1) h = Ok (bin_value h k bin)).
Proof.
  intros h. apply percentile_ends. vm_compute. discriminate.
Defined.


(** X11 on the histogram of 1, ..., 10, whose cache is up to date. *)
Lemma Numeric_roundtrip_witness :
  let h := Demo.numeric_1_to_10 in
  Numeric_fromDict (Numeric_asDict h) = Ok h
  /\ clone h = Ok (set_maxCount_ (max_bin_count h) h).
Proof.
  intros h.
  destruct (Numeric_roundtrip h) as (_ & Hclone & Hsame).
  - vm_compute. reflexivity.
  - reflexivity.
  - intros d. reflexivity.
  - vm_compute. reflexivity.
  - split; [apply Hsame; vm_compute; reflexivity | exact Hclone].
Defined.

(** X13 on the histogram holding 7 and the one holding 2 and NaN. *)
Lemma addNumeric_counts_commute_witness :
  let a := Demo.numeric_with_7 in
  let b := Demo.numeric_with_2_NaN in
  exists a' b' : Numeric,
    addNumeric b a = (a', Ok ())
    /\ addNumeric a b = (b', Ok ())
    /\ map count (allBins a') = map count (allBins b')
    /\ numValues a' = (numValues a + numValues b)%nat
    /\ numValues b' = numValues a'
    /\ numNans a' = (numNans a + numNans b)%nat
    /\ numNans b' = numNans a'.
Proof.
  intros a b. apply addNumeric_counts_commute. vm_compute. reflexivity.
Defined.

(** X14 on the builder of the layout 0, 5, 10, with the value 7 on one
    side and the values 2 and NaN on the other. *)
Lemma same_builder_histograms_add_witness :
  let h := add_all [Fin 7] (build (fst Demo.builder_0_10_2)) in
  let h' := add_all [Fin 2; NaN] (build (fst Demo.builder_0_10_2)) in
  canAddNumeric h h' = true
  /\ exists sum : Numeric,
       addNumeric h' h = (sum, Ok ())
       /\ numValues sum = (numValues h + numValues h')%nat
       /\ numNans sum = (numNans h + numNans h')%nat.
Proof.
  apply (@same_builder_histograms_add Demo.demo (fst Demo.builder_0_10_2)
           [Fin 7] [Fin 2; NaN]).
  apply (@addLinearBins_sorted Demo.demo 10 2
           (@NumericBuilder_new Demo.demo Demo.ms_smallerIsBetter (Fin 0))
           (fst Demo.builder_0_10_2) (snd Demo.builder_0_10_2)).
  - apply sorted_boundaries_new.
  - vm_compute. reflexivity.
Defined.


(** X17 on the histogram holding 7 and the one holding 2 and NaN. *)
Lemma merge_of_addable_histograms_witness :
  let a := Demo.numeric_with_7 in
  let b := Demo.numeric_with_2_NaN in
  exists h : Numeric,
    merge (IsNumeric a) (IsNumeric b) = Ok h
    /\ unit h = unit a
    /\ map range (allBins h) = map range (allBins a)
    /\ map count (allBins h)
       = zip_with Nat.add (map count (allBins a)) (map count (allBins b))
    /\ numValues h = (numValues a + numValues b)%nat
    /\ numNans h = (numNans a + numNans b)%nat
    /\ running h = Running_merge (running a) (running b).
Proof.
  intros a b. apply merge_of_addable_histograms.
  - vm_compute. reflexivity.
  - reflexivity.
  - reflexivity.
  - reflexivity.
  - intros d. reflexivity.
  - vm_compute. reflexivity.
  - vm_compute. reflexivity.
Defined.


(** X20 on the samples 1 and +Infinity. *)
Lemma buildFromSamples_plus_infinity_throws_witness :
  @buildFromSamples Demo.demo Demo.ms_smallerIsBetter [Fin 1; PosInf]
  = Throw "The new max bin boundary must be greater than the previous max bin boundary"
  \/ @buildFromSamples Demo.demo Demo.ms_smallerIsBetter [Fin 1; PosInf]
     = Throw "The added max bin boundary must be larger than the current max boundary".
Proof.
  apply buildFromSamples_plus_infinity_throws.
  - simpl. right. left. reflexivity.
  - simpl. intros [H|[H|[]]]; discriminate H.
Defined.
